(** * labelbox-python: Polygon geometry, Roles and ModelRun

    A shallow embedding of
      - labelbox/data/annotation_types/geometry/polygon.py
      - labelbox/schema/role.py
      - labelbox/schema/model_run.py
    together with the properties their specification states about them.

    Python objects that are mutated in place (a Polygon's [points], the
    function attribute [_get_roles.roles], the remote service behind
    [client.execute]) are modelled by explicit state passing; a raised
    exception is an [outcome] of its own. *)

From Stdlib Require Import ZArith Lia Ascii String.
From stdpp Require Import base decidable option list strings gmap pretty.

Local Open Scope string_scope.
Local Open Scope Z_scope.
Local Open Scope list_scope.

Set Warnings "-register-all".

(** ** Python outcomes *)

Module Py.

(** The exception classes the three modules raise (or that the builtins they
    call raise). *)
Inductive exn : Type :=
  | Exception (msg : string)
  | ValueError (msg : string)
  | ValidationError (msg : string)
  | NotImplementedError (msg : string)
  | TimeoutError (msg : string)
  | KeyError (key : string)
  | IndexError (msg : string)
  | TypeError (msg : string)
  | AttributeError (msg : string)
  | MemoryError.

(** What evaluating a Python expression or call leads to.  [OutOfFuel] is
    only produced by the fuel-bounded model of a [while True] loop. *)
Inductive outcome (A : Type) : Type :=
  | Return (a : A)
  | Raise (e : exn)
  | OutOfFuel.

Arguments Return {A} a.
Arguments Raise {A} e.
Arguments OutOfFuel {A}.

Definition returns {A} (o : outcome A) : bool :=
  match o with Return _ => true | _ => false end.

(** The class of an exception, without its message. *)
Inductive exn_class : Type :=
  | CException | CValueError | CValidationError | CNotImplementedError
  | CTimeoutError | CKeyError | CIndexError | CTypeError | CAttributeError
  | CMemoryError.

Definition class_of (e : exn) : exn_class :=
  match e with
  | Exception _ => CException
  | ValueError _ => CValueError
  | ValidationError _ => CValidationError
  | NotImplementedError _ => CNotImplementedError
  | TimeoutError _ => CTimeoutError
  | KeyError _ => CKeyError
  | IndexError _ => CIndexError
  | TypeError _ => CTypeError
  | AttributeError _ => CAttributeError
  | MemoryError => CMemoryError
  end.

#[global] Instance exn_class_eq_dec : EqDecision exn_class.
Proof. solve_decision. Defined.

(** [issubclass(c, d)] among these classes: every class derives from
    Exception, pydantic's ValidationError derives from ValueError. *)
Definition issubclass (c d : exn_class) : bool :=
  bool_decide (c = d) || bool_decide (d = CException)
  || (bool_decide (c = CValidationError) && bool_decide (d = CValueError)).

(** Whether [except c] catches [e]. *)
Definition catches (c : exn_class) (e : exn) : bool := issubclass (class_of e) c.

(** *** Values exchanged with the remote service

    What [client.execute] takes as parameters and returns: JSON-like Python
    values.  A dict keeps its insertion order. *)
Inductive value : Type :=
  | VNone
  | VBool (b : bool)
  | VInt (z : Z)
  | VStr (s : string)
  | VList (l : list value)
  | VDict (d : list (string * value)).

Fixpoint dict_get (d : list (string * value)) (key : string) : option value :=
  match d with
  | [] => None
  | (k, v) :: d' => if String.eqb k key then Some v else dict_get d' key
  end.

(** [d[key] = v] on the entries of a dict: an existing key keeps its place. *)
Fixpoint dict_set (d : list (string * value)) (key : string) (v : value)
  : list (string * value) :=
  match d with
  | [] => [(key, v)]
  | (k, v0) :: d' =>
      if String.eqb k key then (k, v) :: d' else (k, v0) :: dict_set d' key v
  end.

(** [v[key]] for a string key. *)
Definition getitem (v : value) (key : string) : outcome value :=
  match v with
  | VDict d =>
      match dict_get d key with
      | Some x => Return x
      | None => Raise (KeyError key)
      end
  | VStr _ => Raise (TypeError "string indices must be integers")
  | VList _ => Raise (TypeError "list indices must be integers or slices, not str")
  | VNone => Raise (TypeError "'NoneType' object is not subscriptable")
  | VBool _ => Raise (TypeError "'bool' object is not subscriptable")
  | VInt _ => Raise (TypeError "'int' object is not subscriptable")
  end.

(** [v[key] = x] for a string key. *)
Definition setitem (v : value) (key : string) (x : value) : outcome value :=
  match v with
  | VDict d => Return (VDict (dict_set d key x))
  | _ => Raise (TypeError "object does not support item assignment")
  end.

(** [v == s] for a string literal [s]: only a str can be equal to it. *)
Definition eq_str (v : value) (s : string) : bool :=
  match v with
  | VStr t => String.eqb t s
  | _ => false
  end.

Definition chars (s : string) : list value :=
  (λ c, VStr (String c EmptyString)) <$> String.list_ascii_of_string s.

(** [for x in v]: the elements the loop visits. *)
Definition iterate (v : value) : outcome (list value) :=
  match v with
  | VList l => Return l
  | VDict d => Return ((λ kv, VStr kv.1) <$> d)
  | VStr s => Return (chars s)
  | VNone => Raise (TypeError "'NoneType' object is not iterable")
  | VBool _ => Raise (TypeError "'bool' object is not iterable")
  | VInt _ => Raise (TypeError "'int' object is not iterable")
  end.

Section Str.

(** [repr] of a str (its quoting and escaping). *)
Variable repr_str : string → string.

(** [repr(v)] and [str(v)], as an f-string renders a value. *)
Fixpoint py_repr (v : value) : string :=
  match v with
  | VNone => "None"
  | VBool true => "True"
  | VBool false => "False"
  | VInt z => pretty z
  | VStr s => repr_str s
  | VList l =>
      "[" +:+
      (fix items (l : list value) : string :=
         match l with
         | [] => ""
         | v :: l' =>
             match l' with
             | [] => py_repr v
             | _ :: _ => py_repr v +:+ ", " +:+ items l'
             end
         end) l +:+ "]"
  | VDict d =>
      "{" +:+
      (fix items (d : list (string * value)) : string :=
         match d with
         | [] => ""
         | (k, v) :: d' =>
             match d' with
             | [] => repr_str k +:+ ": " +:+ py_repr v
             | _ :: _ => repr_str k +:+ ": " +:+ py_repr v +:+ ", " +:+ items d'
             end
         end) d +:+ "}"
  end.

Definition py_str (v : value) : string :=
  match v with
  | VStr s => s
  | _ => py_repr v
  end.

End Str.

(** *** str.upper and str.replace

    Strings are sequences of ASCII characters: [upper] maps a..z to A..Z and
    leaves every other character as it is. *)
Definition upper_ascii (c : ascii) : ascii :=
  let n := nat_of_ascii c in
  if (97 <=? n)%nat && (n <=? 122)%nat then ascii_of_nat (n - 32) else c.

Fixpoint upper (s : string) : string :=
  match s with
  | EmptyString => EmptyString
  | String c s' => String (upper_ascii c) (upper s')
  end.

(** [s.replace(old, new)] for one-character [old] and [new]. *)
Fixpoint replace (old new : ascii) (s : string) : string :=
  match s with
  | EmptyString => EmptyString
  | String c s' =>
      String (if Ascii.eqb c old then new else c) (replace old new s')
  end.

End Py.

Import Py.

(** ** labelbox/data/annotation_types/geometry/polygon.py *)

Module PolygonPy.

Section Polygon.

(** Coordinates are any numeric type with a decidable equality. *)
Context {coord : Type} `{EqDecision coord}.

(** Modelled from the spec: Point ("(x, y) numeric coordinate pair"); its
    module, geometry/point.py, is not among the sources. *)
Record Point : Type := mkPoint { x : coord; y : coord }.

#[global] Instance Point_eq_dec : EqDecision Point.
Proof. solve_decision. Defined.

(** [f"{points}"] inside the validator's message. *)
Variable repr_points : list Point → string.

(** How many bytes [np.zeros] is able to allocate (a uint8 canvas takes
    one byte per cell). *)
Variable np_capacity : Z.

(** class Polygon(Geometry): points: List[Point] *)
Record Polygon : Type := mkPolygon { points : list Point }.

(** geojson.Polygon(coordinates) *)
Record geojson_Polygon : Type :=
  mk_geojson_Polygon { type : string; coordinates : list (list (list coord)) }.

Definition geojson_Polygon_new (cs : list (list (list coord))) : geojson_Polygon :=
  {| type := "Polygon"; coordinates := cs |}.

(** @validator('points') is_geom_valid *)
Definition is_geom_valid (points : list Point) : outcome (list Point) :=
  if (Z.of_nat (length points) <? 3)
  then Raise (ValidationError
    ("A polygon must have at least 3 points to be valid. Found " +:+ repr_points points))
  else Return points.

(** Polygon(points=...): the field is set to what its validator returns. *)
Definition Polygon_new (pts : list Point) : outcome Polygon :=
  match is_geom_valid pts with
  | Return pts' => Return {| points := pts' |}
  | Raise e => Raise e
  | OutOfFuel => OutOfFuel
  end.

(** [self.points.append(p)] *)
Definition append (self : Polygon) (p : Point) : Polygon :=
  {| points := points self ++ [p] |}.

(** The [geometry] property.  The object after the call is returned beside
    the result; indexing an empty list raises IndexError. *)
Definition geometry (self : Polygon) : outcome geojson_Polygon * Polygon :=
  match points self !! 0%nat, last (points self) with
  | Some p0, Some p_last =>
      let self' := if bool_decide (p0 ≠ p_last) then append self p0 else self in
      (Return (geojson_Polygon_new
                 [ (λ point, [x point; y point]) <$> points self' ]), self')
  | _, _ => (Raise (IndexError "list index out of range"), self)
  end.

(** A [height] x [width] array of zeros. *)
Definition ndarray : Type := list (list Z).

(** The largest array index and size of numpy (npy_intp, 64 bits). *)
Definition NPY_MAX_INTP : Z := 2 ^ 63 - 1.

(** Whether a Python int converts to an npy_intp. *)
Definition fits_intp (n : Z) : bool :=
  (- NPY_MAX_INTP - 1 <=? n) && (n <=? NPY_MAX_INTP).

(** np.zeros((height, width), dtype=np.uint8).  numpy converts the shape to
    npy_intp, refuses a negative dimension and a size beyond npy_intp, and
    fails with MemoryError when the array cannot be allocated. *)
Definition np_zeros (height width : Z) : outcome ndarray :=
  if negb (fits_intp height && fits_intp width)
  then Raise (ValueError "Maximum allowed dimension exceeded")
  else if (height <? 0) || (width <? 0)
  then Raise (ValueError "negative dimensions are not allowed")
  else if NPY_MAX_INTP <? height * width
  then Raise (ValueError
    "array is too big; `arr.size * arr.dtype.itemsize` is larger than the maximum possible size.")
  else if np_capacity <? height * width
  then Raise MemoryError
  else Return (replicate (Z.to_nat height) (replicate (Z.to_nat width) 0)).

(** Polygon.raster: the canvas is allocated, then the method raises. *)
Definition raster (self : Polygon) (height width : Z) : outcome ndarray * Polygon :=
  match np_zeros height width with
  | Return canvas => (Raise (NotImplementedError ""), self)
  | Raise e => (Raise e, self)
  | OutOfFuel => (OutOfFuel, self)
  end.

(** Calling the [geometry] property [n] times in a row: the results of the
    calls, in order, and the object after the last one. *)
Fixpoint geometry_calls (n : nat) (self : Polygon)
  : list (outcome geojson_Polygon) * Polygon :=
  match n with
  | O => ([], self)
  | S n' =>
      let '(r, self') := geometry self in
      let '(rs, self'') := geometry_calls n' self' in
      (r :: rs, self'')
  end.

(** The number of distinct points of a sequence. *)
Definition distinct_points (pts : list Point) : nat :=
  length (remove_dups pts).

End Polygon.

Arguments Point : clear implicits.
Arguments Polygon : clear implicits.
Arguments geojson_Polygon : clear implicits.

End PolygonPy.

(** ** The process and the remote service

    Everything role.py and model_run.py read or change besides their own
    arguments: the service behind [client.execute], the function attribute
    [_get_roles.roles], the file system [os.path.exists] looks at and the
    calls to [time.sleep]. *)

Module Remote.

Section World.

Context {Client Service : Type}.

(** [client.execute(query, params)] against the service's state: a response
    or an exception, and the service's next state. *)
Variable execute_on : Client → string → value → Service → outcome value * Service.

Record World : Type := mkWorld {
  service : Service;
  executed : list (string * value);      (* every client.execute call so far *)
  _get_roles_roles : option value;       (* the attribute _get_roles.roles *)
  files : gset string;                   (* the paths that exist *)
  slept : list Z                         (* every time.sleep call so far *)
}.

(** A computation that reads and changes the world and returns, raises or
    runs out of fuel. *)
Definition M (A : Type) : Type := World → outcome A * World.

Definition ret {A} (a : A) : M A := λ w, (Return a, w).

Definition raise {A} (e : exn) : M A := λ w, (Raise e, w).

Definition out_of_fuel {A} : M A := λ w, (OutOfFuel, w).

Definition bind {A B} (m : M A) (k : A → M B) : M B :=
  λ w, match m w with
       | (Return a, w') => k a w'
       | (Raise e, w') => (Raise e, w')
       | (OutOfFuel, w') => (OutOfFuel, w')
       end.

#[global] Instance M_ret : MRet M := @ret.
#[global] Instance M_bind : MBind M := λ A B k m, bind m k.

(** An outcome that does not touch the world. *)
Definition lift {A} (o : outcome A) : M A := λ w, (o, w).

Definition client_execute (client : Client) (query : string) (params : value)
  : M value :=
  λ w, let '(r, s') := execute_on client query params (service w) in
       (r, {| service := s';
              executed := executed w ++ [(query, params)];
              _get_roles_roles := _get_roles_roles w;
              files := files w;
              slept := slept w |}).

(** hasattr(_get_roles, 'roles') *)
Definition hasattr_roles : M bool :=
  λ w, (Return (bool_decide (is_Some (_get_roles_roles w))), w).

(** _get_roles.roles = res *)
Definition setattr_roles (res : value) : M unit :=
  λ w, (Return tt, {| service := service w;
                      executed := executed w;
                      _get_roles_roles := Some res;
                      files := files w;
                      slept := slept w |}).

(** _get_roles.roles *)
Definition getattr_roles : M value :=
  λ w, match _get_roles_roles w with
       | Some res => (Return res, w)
       | None => (Raise (AttributeError
                    "'function' object has no attribute 'roles'"), w)
       end.

(** os.path.exists(path) *)
Definition os_path_exists (path : string) : M bool :=
  λ w, (Return (bool_decide (path ∈ files w)), w).

(** time.sleep(secs) *)
Definition time_sleep (secs : Z) : M unit :=
  λ w, if secs <? 0
       then (Raise (ValueError "sleep length must be non-negative"), w)
       else (Return tt, {| service := service w;
                           executed := executed w;
                           _get_roles_roles := _get_roles_roles w;
                           files := files w;
                           slept := slept w ++ [secs] |}).

End World.

Arguments World : clear implicits.
Arguments M : clear implicits.

End Remote.

Import Remote.


(** ** labelbox/schema/role.py *)

Module RolePy.

(** A character as [upper] and [replace(' ', '_')] leave it. *)
Definition normal_ascii (c : ascii) : bool :=
  Ascii.eqb (upper_ascii c) c && negb (Ascii.eqb c " ").

Fixpoint normal (s : string) : bool :=
  match s with
  | EmptyString => true
  | String c s' => normal_ascii c && normal s'
  end.


Section Role.

Context {Client Service : Type}.
Variable execute_on : Client → string → value → Service → outcome value * Service.

(** [f"{self.valid_roles}"]: the repr of a set of names. *)
Variable repr_set : gset string → string.

Definition query_str : string :=
  "query GetAvailableUserRolesPyApi { roles { id name } }".

(** def _get_roles(client) *)
Definition _get_roles (client : Client) : M Service value :=
  has ← hasattr_roles;
  _ ← (if negb has
       then res ← client_execute execute_on client query_str VNone;
            setattr_roles res
       else mret tt);
  getattr_roles.

(** Role(client, result): a DbObject built from the client and the field
    values of [result]. *)
Record Role : Type := mkRole { role_client : Client; field_values : value }.

(** A Roles object: the attributes [setattr] adds to it, one per role, and
    its [valid_roles].  A name [setattr] uses went through [upper], so it has
    no lower-case letter and cannot be one of the object's other attributes. *)
Record Roles : Type := mkRoles {
  attrs : gmap string Role;
  valid_roles : gset string
}.

Definition Roles_empty : Roles := {| attrs := ∅; valid_roles := ∅ |}.

(** The body of [for result in res['roles']].  Each [result] is a dict of
    the cached response and [result['name'] = _name] changes it in place:
    the results as the loop leaves them are returned beside the outcome. *)
Fixpoint init_loop (client : Client) (results : list value) (self : Roles)
  : list value * outcome Roles :=
  match results with
  | [] => ([], Return self)
  | result :: rest =>
      match getitem result "name" with
      | Return (VStr s) =>
          let _name := replace " " "_" (upper s) in
          match setitem result "name" (VStr _name) with
          | Return result' =>
              let self' := {| attrs := <[_name := mkRole client result']> (attrs self);
                              valid_roles := valid_roles self ∪ {[_name]} |} in
              let '(rest', o) := init_loop client rest self' in
              (result' :: rest', o)
          | Raise e => (result :: rest, Raise e)
          | OutOfFuel => (result :: rest, OutOfFuel)
          end
      | Return _ =>
          (result :: rest, Raise (AttributeError "object has no attribute 'upper'"))
      | Raise e => (result :: rest, Raise e)
      | OutOfFuel => (result :: rest, OutOfFuel)
      end
  end.

(** The in-place changes of the loop, seen through [_get_roles.roles]: [res]
    is the cached object itself. *)
Definition write_back (res : value) (results' : list value) : M Service unit :=
  match setitem res "roles" (VList results') with
  | Return res' => setattr_roles res'
  | _ => mret tt
  end.

(** Roles.__init__(self, client) *)
Definition Roles__init__ (client : Client) : M Service Roles :=
  res ← _get_roles client;
  roles ← lift (getitem res "roles");
  results ← lift (iterate roles);
  let '(results', o) := init_loop client results Roles_empty in
  _ ← (match roles with
       | VList _ => write_back res results'
       | _ => mret tt
       end);
  lift o.

(** Roles.__getitem__(self, name) *)
Definition Roles__getitem__ (self : Roles) (name : string) : outcome Role :=
  let name := upper (replace " " "_" name) in
  if bool_decide (name ∉ valid_roles self)
  then Raise (ValueError ("No role named " +:+ name +:+
                " exists. Valid names are one of " +:+ repr_set (valid_roles self)))
  else match attrs self !! name with
       | Some role => Return role
       | None => Raise (AttributeError
                   ("'Roles' object has no attribute '" +:+ name +:+ "'"))
       end.

(** Calling [_get_roles] once per client of a list, in order: the outcomes
    of the calls and the world after the last one. *)
Fixpoint _get_roles_calls (clients : list Client) (w : World Service)
  : list (outcome value) * World Service :=
  match clients with
  | [] => ([], w)
  | client :: clients' =>
      let '(o, w') := _get_roles client w in
      let '(os, w'') := _get_roles_calls clients' w' in
      (o :: os, w'')
  end.


(** [q] differs from [name] only by letter case and by spaces where [name]
    has underscores. *)
Definition variant_ascii (q n : ascii) : bool :=
  Ascii.eqb q n || Ascii.eqb (upper_ascii q) n
  || (Ascii.eqb q " " && Ascii.eqb n "_").

Fixpoint variant_of (q name : string) : bool :=
  match q, name with
  | EmptyString, EmptyString => true
  | String c q', String d name' => variant_ascii c d && variant_of q' name'
  | _, _ => false
  end.

(** What [Roles.__init__] maintains: every valid role name is in normal form
    and has its Role attribute. *)
Definition roles_ok (self : Roles) : Prop :=
  ∀ name, name ∈ valid_roles self →
    normal name = true ∧ is_Some (attrs self !! name).

(** The world right after the one remote fetch of the roles. *)
Definition fetched (w : World Service) (res : value) (s' : Service)
  : World Service :=
  {| service := s';
     executed := executed w ++ [(query_str, VNone)];
     _get_roles_roles := Some res;
     files := files w;
     slept := slept w |}.

(** *** Iteration: __iter__ and __next__ *)

(** [iter(self.valid_roles)]: the order in which a set yields its elements
    is not specified; it is some list of them. *)
Variable iter_set : gset string → list string.

(** A Roles object with the attribute [key_iter] that [__iter__] sets (the
    keys its iterator has still to yield), when it is set. *)
Record RolesObj : Type := mkRolesObj {
  roles_of : Roles;
  key_iter : option (list string)
}.

(** What [next(...)] leads to: an element, StopIteration or another
    exception. *)
Inductive next_outcome : Type :=
  | Yield (role : Role)
  | StopIteration
  | NextRaise (e : exn).

(** Roles.__iter__(self): sets [key_iter] and returns [self]. *)
Definition Roles__iter__ (self : RolesObj) : RolesObj :=
  {| roles_of := roles_of self;
     key_iter := Some (iter_set (valid_roles (roles_of self))) |}.

(** Roles.__next__(self) *)
Definition Roles__next__ (self : RolesObj) : next_outcome * RolesObj :=
  match key_iter self with
  | None =>
      (NextRaise (AttributeError "'Roles' object has no attribute 'key_iter'"), self)
  | Some [] => (StopIteration, self)
  | Some (key :: keys) =>
      let self' := {| roles_of := roles_of self; key_iter := Some keys |} in
      match attrs (roles_of self) !! key with
      | Some role => (Yield role, self')
      | None => (NextRaise (AttributeError
                   ("'Roles' object has no attribute '" +:+ key +:+ "'")), self')
      end
  end.

(** Calling [__next__] until StopIteration, at most [fuel] times: the
    elements yielded. *)
Fixpoint next_all (fuel : nat) (self : RolesObj) : outcome (list Role) * RolesObj :=
  match fuel with
  | O => (OutOfFuel, self)
  | S fuel' =>
      match Roles__next__ self with
      | (Yield role, self') =>
          let '(o, self'') := next_all fuel' self' in
          (match o with
           | Return l => Return (role :: l)
           | Raise e => Raise e
           | OutOfFuel => OutOfFuel
           end, self'')
      | (StopIteration, self') => (Return [], self')
      | (NextRaise e, self') => (Raise e, self')
      end
  end.

(** [list(self)], or a [for] loop over [self] that collects what it visits:
    [iter(self)], then [next] until StopIteration. *)
Definition list_of (fuel : nat) (self : RolesObj) : outcome (list Role) * RolesObj :=
  next_all fuel (Roles__iter__ self).

End Role.

Arguments Role : clear implicits.
Arguments Roles : clear implicits.
Arguments RolesObj : clear implicits.
Arguments next_outcome : clear implicits.

End RolePy.

(** ** labelbox/schema/model_run.py *)

Module ModelRunPy.

(** The [predictions] argument of [add_predictions]: a JSON-like value (str,
    list, dict, int, bool, None), a pathlib.Path or a tuple. *)
Inductive pyobj : Type :=
  | Obj (v : value)
  | PathObj (path : string)
  | TupleObj (items : list value).

(** isinstance(o, str) *)
Definition is_str (o : pyobj) : bool :=
  match o with Obj (VStr _) => true | _ => false end.

(** isinstance(o, Path) *)
Definition is_Path (o : pyobj) : bool :=
  match o with PathObj _ => true | _ => false end.

(** isinstance(o, Iterable): the class defines __iter__. *)
Definition is_Iterable (o : pyobj) : bool :=
  match o with
  | Obj (VStr _) | Obj (VList _) | Obj (VDict _) | TupleObj _ => true
  | Obj VNone | Obj (VBool _) | Obj (VInt _) | PathObj _ => false
  end.

(** f"{type(o)}" *)
Definition type_repr (o : pyobj) : string :=
  match o with
  | Obj VNone => "<class 'NoneType'>"
  | Obj (VBool _) => "<class 'bool'>"
  | Obj (VInt _) => "<class 'int'>"
  | Obj (VStr _) => "<class 'str'>"
  | Obj (VList _) => "<class 'list'>"
  | Obj (VDict _) => "<class 'dict'>"
  | PathObj _ => "<class 'pathlib.PosixPath'>"
  | TupleObj _ => "<class 'tuple'>"
  end.

Section ModelRun.

Context {Client Service : Type}.
Variable execute_on : Client → string → value → Service → outcome value * Service.

(** [repr] of a str, for [py_str]. *)
Variable repr_str : string → string.

(** MEAPredictionImport and its three constructors, from
    labelbox/schema/annotation_import.py; each takes the keyword arguments
    client, model_run_id and name. *)
Context {MEAPredictionImport : Type}.
Variable create_from_file :
  string → Client → string → string → M Service MEAPredictionImport.
Variable create_from_url :
  string → Client → string → string → M Service MEAPredictionImport.
Variable create_from_objects :
  pyobj → Client → string → string → M Service MEAPredictionImport.

(** class ModelRun(DbObject) *)
Record ModelRun : Type := mkModelRun {
  client : Client;
  uid : string;
  name : string;
  model_id : string
}.

(** def _wait_until_done(self, status_fn, timeout_seconds=60, sleep_time=5).
    [while True] runs for at most [fuel] iterations; seconds are integers. *)
Fixpoint _wait_until_done (fuel : nat) (self : ModelRun)
    (status_fn : M Service value) (timeout_seconds sleep_time : Z)
  : M Service bool :=
  match fuel with
  | O => out_of_fuel
  | S fuel' =>
      res ← status_fn;
      status ← lift (getitem res "status");
      if eq_str status "COMPLETE" then mret true
      else
        status ← lift (getitem res "status");
        if eq_str status "FAILED" then
          errorMessage ← lift (getitem res "errorMessage");
          raise (Exception ("MEA Import Failed. Details : " +:+
                            py_str repr_str errorMessage))
        else
          let timeout_seconds := timeout_seconds - sleep_time in
          if timeout_seconds <=? 0 then
            raise (TimeoutError ("Unable to complete import within " +:+
                                 pretty timeout_seconds +:+ " seconds."))
          else
            _ ← time_sleep sleep_time;
            _wait_until_done fuel' self status_fn timeout_seconds sleep_time
  end.

Definition ids (l : list string) : value := VList (VStr <$> l).

(** The local names of [upsert_labels]. *)
Definition labels_mutation_name : string :=
  "createMEAModelRunLabelRegistrationTask".

Definition labels_create_task_query_str : string :=
  "mutation createMEAModelRunLabelRegistrationTaskPyApi($modelRunId: ID!, $labelIds : [ID!]!) {
          " +:+ labels_mutation_name +:+ "(where : { id : $modelRunId}, data : {labelIds: $labelIds})}
          ".

Definition labels_status_query_str : string :=
  "query MEALabelRegistrationTaskStatusPyApi($where: WhereUniqueIdInput!){
            MEALabelRegistrationTaskStatus(where: $where) {status errorMessage}
        }
        ".

(** The lambda [upsert_labels] hands to [_wait_until_done]. *)
Definition labels_status_fn (self : ModelRun) (task_id : value) : M Service value :=
  r ← client_execute execute_on (client self) labels_status_query_str
        (VDict [("where", VDict [("id", task_id)])]);
  lift (getitem r "MEALabelRegistrationTaskStatus").

(** def upsert_labels(self, label_ids, timeout_seconds=60) *)
Definition upsert_labels (fuel : nat) (self : ModelRun)
    (label_ids : list string) (timeout_seconds : Z) : M Service bool :=
  if Z.of_nat (length label_ids) <? 1 then
    raise (ValueError "Must provide at least one label id")
  else
    res ← client_execute execute_on (client self) labels_create_task_query_str
            (VDict [("modelRunId", VStr (uid self)); ("labelIds", ids label_ids)]);
    task_id ← lift (getitem res labels_mutation_name);
    _wait_until_done fuel self (labels_status_fn self task_id) timeout_seconds 5.

(** The local names of [upsert_data_rows]. *)
Definition data_rows_mutation_name : string :=
  "createMEAModelRunDataRowRegistrationTask".

Definition data_rows_create_task_query_str : string :=
  "mutation createMEAModelRunDataRowRegistrationTaskPyApi($modelRunId: ID!, $dataRowIds : [ID!]!) {
          " +:+ data_rows_mutation_name +:+ "(where : { id : $modelRunId}, data : {dataRowIds: $dataRowIds})}
          ".

Definition data_rows_status_query_str : string :=
  "query MEADataRowRegistrationTaskStatusPyApi($where: WhereUniqueIdInput!){
            MEADataRowRegistrationTaskStatus(where: $where) {status errorMessage}
        }
        ".

(** The lambda [upsert_data_rows] hands to [_wait_until_done]. *)
Definition data_rows_status_fn (self : ModelRun) (task_id : value) : M Service value :=
  r ← client_execute execute_on (client self) data_rows_status_query_str
        (VDict [("where", VDict [("id", task_id)])]);
  lift (getitem r "MEADataRowRegistrationTaskStatus").

(** def upsert_data_rows(self, data_row_ids, timeout_seconds=60) *)
Definition upsert_data_rows (fuel : nat) (self : ModelRun)
    (data_row_ids : list string) (timeout_seconds : Z) : M Service bool :=
  if Z.of_nat (length data_row_ids) <? 1 then
    raise (ValueError "Must provide at least one data row id")
  else
    res ← client_execute execute_on (client self) data_rows_create_task_query_str
            (VDict [("modelRunId", VStr (uid self)); ("dataRowIds", ids data_row_ids)]);
    task_id ← lift (getitem res data_rows_mutation_name);
    _wait_until_done fuel self (data_rows_status_fn self task_id) timeout_seconds 5.

(** str(predictions).  [add_predictions] takes it of a str or of a Path
    only: the str itself, the path of the Path; the last case is never used. *)
Definition str_of (o : pyobj) : string :=
  match o with
  | Obj (VStr s) => s
  | PathObj p => p
  | _ => type_repr o
  end.

(** def add_predictions(self, name, predictions) *)
Definition add_predictions (self : ModelRun) (name : string) (predictions : pyobj)
  : M Service MEAPredictionImport :=
  if is_str predictions || is_Path predictions then
    found ← os_path_exists (str_of predictions);
    if (found : bool) then
      create_from_file (str_of predictions) (client self) (uid self) name
    else
      create_from_url (str_of predictions) (client self) (uid self) name
  else if is_Iterable predictions then
    create_from_objects predictions (client self) (uid self) name
  else
    raise (ValueError ("Invalid predictions given of type: " +:+ type_repr predictions)).

(** A status function that answers every call, in every world, with a
    status that is neither COMPLETE nor FAILED. *)
Definition pending (status_fn : M Service value) : Prop :=
  ∀ w, ∃ res w' status,
    status_fn w = (Return res, w')
    ∧ getitem res "status" = Return status
    ∧ eq_str status "COMPLETE" = false
    ∧ eq_str status "FAILED" = false.

(** The world after [k] polls that each answered with a status that is
    neither COMPLETE nor FAILED and were each followed by
    [time.sleep(sleep_time)]; None when one of these polls answered otherwise
    or when the sleep raised. *)
Fixpoint after_pending_polls (status_fn : M Service value) (sleep_time : Z)
    (k : nat) (w : World Service) : option (World Service) :=
  match k with
  | O => Some w
  | S k' =>
      match status_fn w with
      | (Return res, w1) =>
          match getitem res "status" with
          | Return status =>
              if eq_str status "COMPLETE" || eq_str status "FAILED" then None
              else match time_sleep sleep_time w1 with
                   | (Return _, w2) => after_pending_polls status_fn sleep_time k' w2
                   | _ => None
                   end
          | _ => None
          end
      | _ => None
      end
  end.

(** None of the three constructors raises. *)
Definition constructors_return : Prop :=
  ∀ (o : pyobj) (s : string) client model_run_id name w,
    returns (create_from_file s client model_run_id name w).1 = true
    ∧ returns (create_from_url s client model_run_id name w).1 = true
    ∧ returns (create_from_objects o client model_run_id name w).1 = true.

(** [client.app_url] *)
Variable app_url : Client → string.

(** class ModelRunDataRow(DbObject), with the [model_id] its __init__ adds. *)
Record ModelRunDataRow : Type := mkModelRunDataRow {
  row_client : Client;
  row_uid : string;
  label_id : string;
  model_run_id : string;
  row_model_id : string
}.

(** ModelRunDataRow.__init__(self, client, model_id, field_values), the
    field values being the uid, the label id and the model run id. *)
Definition ModelRunDataRow__init__ (client : Client) (model_id : string)
    (uid label_id model_run_id : string) : ModelRunDataRow :=
  {| row_client := client; row_uid := uid; label_id := label_id;
     model_run_id := model_run_id; row_model_id := model_id |}.

(** The [url] property of a ModelRunDataRow. *)
Definition url (self : ModelRunDataRow) : string :=
  app_url (row_client self) +:+ "/models/" +:+ row_model_id self +:+ "/" +:+
  model_run_id self +:+ "/AllDatarowsSlice/" +:+ row_uid self +:+ "?view=carousel".

End ModelRun.

Arguments ModelRun : clear implicits.
Arguments ModelRunDataRow : clear implicits.

End ModelRunPy.

(** ** Concrete data

    A triangle, and a small service that answers the roles query, used to
    run the definitions above. *)

Module Demo.

Import PolygonPy RolePy ModelRunPy.

Definition origin : Point Z := mkPoint 0 0.

Definition triangle : list (Point Z) := [origin; mkPoint 4 0; mkPoint 0 3].

Definition roles_response : value :=
  VDict [("roles",
          VList [VDict [("id", VStr "r1"); ("name", VStr "Admin")];
                 VDict [("id", VStr "r2"); ("name", VStr "Project Lead")]])].

(** The service counts the requests it has served.  It knows the roles
    query, creates the label registration task "task-1" and reports it
    IN_PROGRESS until it has served 3 requests, COMPLETE afterwards; it
    answers any other query with an empty object. *)
Definition execute_on (client : unit) (query : string) (params : value) (served : nat)
  : outcome value * nat :=
  if String.eqb query query_str then
    (Return roles_response, S served)
  else if String.eqb query labels_create_task_query_str then
    (Return (VDict [(labels_mutation_name, VStr "task-1")]), S served)
  else if String.eqb query labels_status_query_str then
    (Return (VDict [("MEALabelRegistrationTaskStatus",
                     VDict [("status",
                             VStr (if (3 <=? served)%nat then "COMPLETE"
                                   else "IN_PROGRESS"));
                            ("errorMessage", VNone)])]),
     S served)
  else (Return (VDict []), S served).

Definition fresh_world : World nat :=
  {| service := O; executed := []; _get_roles_roles := None;
     files := {["preds.ndjson"]}; slept := [] |}.

Definition populated : outcome (Roles unit) * World nat :=
  Roles__init__ execute_on () fresh_world.

Definition roles : Roles unit :=
  match populated.1 with
  | Return r => r
  | _ => Roles_empty
  end.

Definition repr_str (s : string) : string := "'" +:+ s +:+ "'".

Definition run : ModelRun unit :=
  {| client := (); uid := "run-1"; name := "demo"; model_id := "model-1" |}.

Definition failed_status : M nat value :=
  mret (VDict [("status", VStr "FAILED"); ("errorMessage", VStr "boom")]).

Definition complete_status : M nat value :=
  mret (VDict [("status", VStr "COMPLETE"); ("errorMessage", VNone)]).

Definition running_status : M nat value :=
  mret (VDict [("status", VStr "IN_PROGRESS"); ("errorMessage", VNone)]).

(** Imports that only record which constructor was called, and on what. *)
Definition from_file (path : string) (c : unit) (model_run_id name : string)
  : M nat string := mret ("file " +:+ path).

Definition from_url (url : string) (c : unit) (model_run_id name : string)
  : M nat string := mret ("url " +:+ url).

Definition from_objects (predictions : pyobj) (c : unit) (model_run_id name : string)
  : M nat string := mret "objects".

(** The demo service right after it created the task "task-1". *)
Definition polling_world : World nat :=
  {| service := 1%nat; executed := []; _get_roles_roles := None;
     files := ∅; slept := [] |}.

(** The status function of [upsert_labels] for that task. *)
Definition task_status : M nat value :=
  labels_status_fn execute_on run (VStr "task-1").

Definition after_two_polls : World nat :=
  match after_pending_polls task_status 5 2 polling_world with
  | Some w => w
  | None => polling_world
  end.

Definition empty_status : M nat value := mret (VDict []).

(** A service that is down: every call raises. *)
Definition down_execute_on (client : unit) (query : string) (params : value)
    (served : nat) : outcome value * nat :=
  (Raise (Exception "connection refused"), S served).

(** A service that refuses its first request and works afterwards. *)
Definition flaky_execute_on (client : unit) (query : string) (params : value)
    (served : nat) : outcome value * nat :=
  match served with
  | O => (Raise (Exception "connection refused"), S served)
  | S _ => execute_on client query params served
  end.

Definition demo_app_url (client : unit) : string := "https://app.example".

Definition row (uid : string) : ModelRunDataRow unit :=
  ModelRunDataRow__init__ () "model-1" uid "label-1" "run-1".

End Demo.

(** * Properties *)

(** ** Polygon *)

Module PolygonFacts.

Import PolygonPy Demo.

Section Facts.

Context {coord : Type} `{EqDecision coord}.
Variable repr_points : list (Point coord) → string.
Variable np_capacity : Z.

Implicit Types (pts : list (Point coord)) (self : Polygon coord).

Lemma is_geom_valid_short pts :
  (length pts < 3)%nat →
  is_geom_valid repr_points pts =
    Raise (ValidationError
      ("A polygon must have at least 3 points to be valid. Found " +:+ repr_points pts)).
Proof.
  intros Hlen. unfold is_geom_valid.
  destruct (Z.ltb_spec (Z.of_nat (length pts)) 3) as [_|Hge]; [reflexivity|lia].
Qed.

Lemma is_geom_valid_long pts :
  (3 ≤ length pts)%nat → is_geom_valid repr_points pts = Return pts.
Proof.
  intros Hlen. unfold is_geom_valid.
  destruct (Z.ltb_spec (Z.of_nat (length pts)) 3) as [Hlt|_]; [lia|reflexivity].
Qed.

Lemma Polygon_new_short pts :
  (length pts < 3)%nat →
  Polygon_new repr_points pts =
    Raise (ValidationError
      ("A polygon must have at least 3 points to be valid. Found " +:+ repr_points pts)).
Proof. intros Hlen. unfold Polygon_new. by rewrite is_geom_valid_short. Qed.

Lemma Polygon_new_long pts :
  (3 ≤ length pts)%nat → Polygon_new repr_points pts = Return (mkPolygon pts).
Proof. intros Hlen. unfold Polygon_new. by rewrite is_geom_valid_long. Qed.

Lemma Polygon_new_inv pts self :
  Polygon_new repr_points pts = Return self →
  self = mkPolygon pts ∧ (3 ≤ length pts)%nat.
Proof.
  destruct (decide (3 ≤ length pts)%nat) as [Hge|Hlt].
  - rewrite (Polygon_new_long pts Hge). by intros [= <-].
  - rewrite Polygon_new_short by lia. discriminate.
Qed.

(** One call of [geometry] on a non-empty sequence, spelled out. *)
Lemma geometry_cons p0 pts :
  geometry (mkPolygon (p0 :: pts)) =
    let closed :=
      if bool_decide (last (p0 :: pts) = Some p0) then p0 :: pts
      else (p0 :: pts) ++ [p0] in
    (Return (geojson_Polygon_new [ (λ point, [x point; y point]) <$> closed ]),
     mkPolygon closed).
Proof.
  unfold geometry. cbn [points lookup list_lookup].
  destruct (last (p0 :: pts)) as [pl|] eqn:Hlast.
  - destruct (decide (p0 = pl)) as [->|Hne].
    + rewrite bool_decide_eq_false_2 by (intros Hc; by apply Hc).
      by rewrite bool_decide_eq_true_2.
    + rewrite bool_decide_eq_true_2 by done.
      rewrite bool_decide_eq_false_2 by congruence.
      reflexivity.
  - by apply last_None in Hlast.
Qed.

(** Once the ring is closed, [geometry] changes nothing. *)
Lemma geometry_closed p0 pts :
  last (p0 :: pts) = Some p0 →
  geometry (mkPolygon (p0 :: pts)) =
    (Return (geojson_Polygon_new [ (λ point, [x point; y point]) <$> p0 :: pts ]),
     mkPolygon (p0 :: pts)).
Proof. intros Hl. rewrite geometry_cons. cbv zeta. by rewrite bool_decide_eq_true_2. Qed.

Lemma geometry_calls_closed n p0 pts :
  last (p0 :: pts) = Some p0 →
  geometry_calls n (mkPolygon (p0 :: pts)) =
    (replicate n
       (Return (geojson_Polygon_new [ (λ point, [x point; y point]) <$> p0 :: pts ])),
     mkPolygon (p0 :: pts)).
Proof.
  intros Hl. induction n as [|n IH]; [reflexivity|].
  cbn [geometry_calls]. rewrite geometry_closed by done.
  rewrite IH. reflexivity.
Qed.

(** C1: for a Polygon constructed from at least 3 points, a call of the
    [geometry] property leaves a stored sequence that starts and ends with
    the same point: the given sequence itself when its last point already
    equals its first, the given sequence with its first point appended
    otherwise; the call returns the nested array [[[x, y], ...]] of that closed
    sequence. *)
Theorem geometry_closes_ring pts :
  (3 ≤ length pts)%nat →
  ∃ self p0,
    Polygon_new repr_points pts = Return self ∧
    head pts = Some p0 ∧
    let '(result, self') := geometry self in
    points self' =
      (if bool_decide (last pts = Some p0) then pts else pts ++ [p0]) ∧
    head (points self') = Some p0 ∧
    last (points self') = Some p0 ∧
    result = Return {| type := "Polygon";
                       coordinates :=
                         [ (λ point, [x point; y point]) <$> points self' ] |}.
Proof.
  intros Hlen. destruct pts as [|p0 pts]; [simpl in Hlen; lia|].
  exists (mkPolygon (p0 :: pts)), p0.
  split; [by apply Polygon_new_long|]. split; [done|].
  rewrite geometry_cons. cbv zeta. cbn [points].
  case_bool_decide as Hl.
  - repeat split; done.
  - repeat split; try done. apply last_snoc.
Qed.

(** C2: constructing a Polygon from 0, 1 or 2 points raises
    ValidationError, the validator's own error, and never returns a
    Polygon. *)
Theorem Polygon_new_rejects_short pts :
  (length pts < 3)%nat →
  (∃ msg, Polygon_new repr_points pts = Raise (ValidationError msg))
  ∧ ∀ self, Polygon_new repr_points pts ≠ Return self.
Proof.
  intros Hlen. pose proof (Polygon_new_short pts Hlen) as Hnew.
  split; [by eexists|]. intros self. rewrite Hnew. discriminate.
Qed.

Lemma remove_dups_length_le pts : (length (remove_dups pts) ≤ length pts)%nat.
Proof.
  induction pts as [|p pts IH]; [done|].
  cbn [remove_dups]. destruct (decide_rel elem_of p pts); simpl; lia.
Qed.

(** C3, as the code has it: construction succeeds exactly on the sequences of
    at least 3 points, repeated points counted; the constructed Polygon holds
    the given sequence, so it has at least 3 points; every sequence with at
    least 3 distinct points is among the accepted ones. *)
Theorem Polygon_new_counts_points pts :
  (∀ self, Polygon_new repr_points pts = Return self ↔
           self = mkPolygon pts ∧ (3 ≤ length pts)%nat)
  ∧ (returns (Polygon_new repr_points pts) = bool_decide (3 ≤ length pts)%nat)
  ∧ ((3 ≤ distinct_points pts)%nat →
     Polygon_new repr_points pts = Return (mkPolygon pts)).
Proof.
  destruct (decide (3 ≤ length pts)%nat) as [Hge|Hlt].
  - rewrite (Polygon_new_long pts Hge). split; [|split].
    + intros self. split; [intros [= <-]; done|intros [-> _]; done].
    + simpl. by rewrite bool_decide_eq_true_2.
    + done.
  - rewrite Polygon_new_short by lia. split; [|split].
    + intros self. split; [discriminate|intros [_ ?]; lia].
    + simpl. by rewrite bool_decide_eq_false_2.
    + intros Hd. pose proof (remove_dups_length_le pts).
      unfold distinct_points in Hd. lia.
Qed.

(** C9: on a valid Polygon, every call of [geometry] after the first one
    leaves the stored points as the first call left them and returns what the
    first call returned; the first call appended at most one point. *)
Theorem geometry_idempotent pts self :
  Polygon_new repr_points pts = Return self →
  let '(result, self') := geometry self in
  (∀ n, geometry_calls n self' = (replicate n result, self'))
  ∧ (∀ n, geometry_calls (S n) self = (replicate (S n) result, self'))
  ∧ (length (points self') ≤ length (points self) + 1)%nat.
Proof.
  intros Hnew.
  apply Polygon_new_inv in Hnew as [-> Hlen].
  destruct pts as [|p0 pts]; [simpl in Hlen; lia|].
  rewrite geometry_cons. cbv zeta.
  assert (∀ closed n,
    last (p0 :: closed) = Some p0 →
    geometry_calls n (mkPolygon (p0 :: closed)) =
      (replicate n (Return (geojson_Polygon_new
         [ (λ point, [x point; y point]) <$> p0 :: closed ])),
       mkPolygon (p0 :: closed))) as Hcalls.
  { intros closed n Hl. by apply geometry_calls_closed. }
  case_bool_decide as Hl.
  - split; [|split].
    + intros n. by apply Hcalls.
    + intros n. cbn [geometry_calls]. rewrite geometry_closed by done.
      by rewrite Hcalls.
    + cbn [points]. lia.
  - assert (last (p0 :: pts ++ [p0]) = Some p0) as Hl'.
    { rewrite app_comm_cons. apply last_snoc. }
    split; [|split].
    + intros n. apply (Hcalls (pts ++ [p0])), Hl'.
    + intros n. cbn [geometry_calls]. rewrite geometry_cons. cbv zeta.
      rewrite bool_decide_eq_false_2 by done.
      change ((p0 :: pts) ++ [p0]) with (p0 :: pts ++ [p0]).
      by rewrite (Hcalls (pts ++ [p0]) n Hl').
    + cbn [points]. rewrite length_app. simpl. lia.
Qed.

(** What [np.zeros] needs to return a canvas. *)
Lemma np_zeros_returns (height width : Z) :
  returns (np_zeros np_capacity height width) =
    bool_decide (0 ≤ height ≤ NPY_MAX_INTP ∧ 0 ≤ width ≤ NPY_MAX_INTP
                 ∧ height * width ≤ NPY_MAX_INTP ∧ height * width ≤ np_capacity).
Proof.
  unfold np_zeros, fits_intp.
  assert (0 < NPY_MAX_INTP) as Hmax by done.
  destruct (Z.leb_spec (- NPY_MAX_INTP - 1) height);
    destruct (Z.leb_spec height NPY_MAX_INTP);
    destruct (Z.leb_spec (- NPY_MAX_INTP - 1) width);
    destruct (Z.leb_spec width NPY_MAX_INTP); cbn [andb negb returns];
    try (symmetry; apply bool_decide_eq_false; lia).
  destruct (Z.ltb_spec height 0); destruct (Z.ltb_spec width 0);
    cbn [orb returns]; try (symmetry; apply bool_decide_eq_false; lia).
  destruct (Z.ltb_spec NPY_MAX_INTP (height * width)); cbn [returns];
    [symmetry; apply bool_decide_eq_false; lia|].
  destruct (Z.ltb_spec np_capacity (height * width)); cbn [returns];
    [symmetry; apply bool_decide_eq_false; lia|].
  symmetry. apply bool_decide_eq_true. lia.
Qed.

(** What [np.zeros] raises when it returns no canvas. *)
Lemma np_zeros_raises (height width : Z) :
  returns (np_zeros np_capacity height width) = false →
  (np_zeros np_capacity height width = Raise MemoryError
   ∧ 0 ≤ height ≤ NPY_MAX_INTP ∧ 0 ≤ width ≤ NPY_MAX_INTP
   ∧ height * width ≤ NPY_MAX_INTP ∧ np_capacity < height * width)
  ∨ ((∃ msg, np_zeros np_capacity height width = Raise (ValueError msg))
     ∧ (height < 0 ∨ width < 0 ∨ NPY_MAX_INTP < height ∨ NPY_MAX_INTP < width
        ∨ NPY_MAX_INTP < height * width)).
Proof.
  unfold np_zeros, fits_intp.
  assert (0 < NPY_MAX_INTP) as Hmax by done.
  destruct (Z.leb_spec (- NPY_MAX_INTP - 1) height);
    destruct (Z.leb_spec height NPY_MAX_INTP);
    destruct (Z.leb_spec (- NPY_MAX_INTP - 1) width);
    destruct (Z.leb_spec width NPY_MAX_INTP); cbn [andb negb returns];
    try (intros _; right; split; [by eexists|lia]).
  destruct (Z.ltb_spec height 0); destruct (Z.ltb_spec width 0);
    cbn [orb returns]; try (intros _; right; split; [by eexists|lia]).
  destruct (Z.ltb_spec NPY_MAX_INTP (height * width)); cbn [returns];
    [intros _; right; split; [by eexists|lia]|].
  destruct (Z.ltb_spec np_capacity (height * width)); cbn [returns]; [|done].
  intros _. left. split; [done|lia].
Qed.

(** C8, as the code has it: [raster] never returns a canvas and leaves the
    Polygon as it is.  It raises NotImplementedError exactly when [np.zeros]
    returns the canvas: both dimensions non-negative and within numpy's index
    range, and their product within that range and within what can be
    allocated.  With a negative dimension, or with a dimension or a size out
    of numpy's range, it is [np.zeros] that raises, a ValueError; with a size
    in range that cannot be allocated, MemoryError. *)
Theorem raster_never_returns self (height width : Z) :
  returns (raster np_capacity self height width).1 = false
  ∧ (raster np_capacity self height width).2 = self
  ∧ (raster np_capacity self height width = (Raise (NotImplementedError ""), self)
     ↔ 0 ≤ height ≤ NPY_MAX_INTP ∧ 0 ≤ width ≤ NPY_MAX_INTP
       ∧ height * width ≤ NPY_MAX_INTP ∧ height * width ≤ np_capacity)
  ∧ (height < 0 ∨ width < 0 ∨ NPY_MAX_INTP < height ∨ NPY_MAX_INTP < width
     ∨ NPY_MAX_INTP < height * width →
     ∃ msg, raster np_capacity self height width = (Raise (ValueError msg), self))
  ∧ (0 ≤ height ≤ NPY_MAX_INTP → 0 ≤ width ≤ NPY_MAX_INTP →
     height * width ≤ NPY_MAX_INTP → np_capacity < height * width →
     raster np_capacity self height width = (Raise MemoryError, self)).
Proof.
  pose proof (np_zeros_returns height width) as Hret.
  pose proof (np_zeros_raises height width) as Hraise.
  unfold raster.
  destruct (np_zeros np_capacity height width) as [canvas|e|] eqn:Hz;
    cbn [returns fst snd] in *.
  - symmetry in Hret. apply bool_decide_eq_true in Hret.
    split; [done|]. split; [done|]. split; [done|]. split; [lia|lia].
  - symmetry in Hret. apply bool_decide_eq_false in Hret.
    split; [done|]. split; [done|].
    destruct (Hraise eq_refl) as [(He & Hrange)|([msg He] & Hrange)];
      injection He as ->.
    + split; [split; [discriminate|lia]|]. split; [lia|done].
    + split; [split; [discriminate|lia]|]. split; [by eexists|lia].
  - destruct (Hraise eq_refl) as [(He & _)|([msg He] & _)]; discriminate He.
Qed.

End Facts.

(** C1 at a triangle whose ring is open. *)
Lemma geometry_closes_ring_witness :
  ∃ (self : Polygon Z) p0,
    Polygon_new (λ _, "[...]") triangle = Return self ∧
    head triangle = Some p0 ∧
    let '(result, self') := geometry self in
    points self' =
      (if bool_decide (last triangle = Some p0) then triangle else triangle ++ [p0]) ∧
    head (points self') = Some p0 ∧
    last (points self') = Some p0 ∧
    result = Return {| type := "Polygon";
                       coordinates :=
                         [ (λ point, [x point; y point]) <$> points self' ] |}.
Proof.
  apply (geometry_closes_ring (coord := Z) (λ _, "[...]") triangle). simpl. lia.
Defined.

(** C2 at the sequence of two points. *)
Lemma Polygon_new_rejects_short_witness :
  (∃ msg, Polygon_new (λ _, "[...]") [origin; mkPoint 4 0] = Raise (ValidationError msg))
  ∧ ∀ self, Polygon_new (λ _, "[...]") [origin; mkPoint 4 0] ≠ Return self.
Proof.
  apply (Polygon_new_rejects_short (coord := Z) (λ _, "[...]") [origin; mkPoint 4 0]).
  simpl. lia.
Defined.

(** C3 fails as stated: three copies of one point are accepted, and the
    constructed Polygon has one distinct point. *)
Lemma Polygon_new_accepts_repeated_point :
  Polygon_new (λ _, "") [origin; origin; origin] =
    Return (mkPolygon [origin; origin; origin])
  ∧ distinct_points [origin; origin; origin] = 1%nat
  ∧ ¬ (∀ pts self, Polygon_new (coord := Z) (λ _, "") pts = Return self →
                    (3 ≤ distinct_points (points self))%nat).
Proof.
  split; [reflexivity|]. split; [reflexivity|].
  intros Hclaim.
  specialize (Hclaim [origin; origin; origin] (mkPolygon [origin; origin; origin]) eq_refl).
  vm_compute in Hclaim. lia.
Qed.

Example geometry_triangle :
  geometry (mkPolygon triangle) =
    (Return {| type := "Polygon";
               coordinates := [[[0; 0]; [4; 0]; [0; 3]; [0; 0]]] |},
     mkPolygon (triangle ++ [origin])).
Proof. reflexivity. Qed.

(** C3, as amended, at the triangle: three distinct points are accepted. *)
Lemma Polygon_new_counts_points_witness :
  Polygon_new (λ _, "[...]") triangle = Return (mkPolygon triangle).
Proof.
  apply (Polygon_new_counts_points (coord := Z) (λ _, "[...]") triangle).
  vm_compute. lia.
Defined.

(** C8, as amended, at a canvas of 4 rows and 5 columns, at a height
    beyond numpy's range and at a canvas too large to allocate. *)
Lemma raster_never_returns_witness :
  raster 1000000 (mkPolygon triangle) 4 5 =
    (Raise (NotImplementedError ""), mkPolygon triangle)
  ∧ (∃ msg, raster 1000000 (mkPolygon triangle) (2 ^ 63) 1 =
              (Raise (ValueError msg), mkPolygon triangle))
  ∧ raster 1000000 (mkPolygon triangle) 2000 2000 =
      (Raise MemoryError, mkPolygon triangle).
Proof.
  split; [|split].
  - apply (proj1 (proj2 (proj2
      (raster_never_returns (coord := Z) 1000000 (mkPolygon triangle) 4 5)))).
    unfold NPY_MAX_INTP. lia.
  - apply (proj1 (proj2 (proj2 (proj2
      (raster_never_returns (coord := Z) 1000000 (mkPolygon triangle) (2 ^ 63) 1))))).
    unfold NPY_MAX_INTP. lia.
  - apply (proj2 (proj2 (proj2 (proj2
      (raster_never_returns (coord := Z) 1000000 (mkPolygon triangle) 2000 2000)))));
      unfold NPY_MAX_INTP; lia.
Defined.

(** C9 at a triangle whose ring is open. *)
Lemma geometry_idempotent_witness :
  let '(result, self') := geometry (mkPolygon triangle) in
  (∀ n, geometry_calls n self' = (replicate n result, self'))
  ∧ (∀ n, geometry_calls (S n) (mkPolygon triangle) = (replicate (S n) result, self'))
  ∧ (length (points self') ≤ length (points (mkPolygon triangle)) + 1)%nat.
Proof.
  apply (geometry_idempotent (coord := Z) (λ _, "[...]") triangle (mkPolygon triangle)).
  reflexivity.
Defined.

(** C8 fails as stated: with a negative height the call raises ValueError,
    not NotImplementedError. *)
Lemma raster_negative_height :
  raster (2 ^ 31) (mkPolygon triangle) (-1) 5 =
    (Raise (ValueError "negative dimensions are not allowed"),
     mkPolygon triangle)
  ∧ ¬ (∀ (self : Polygon Z) height width,
         ∃ msg, (raster (2 ^ 31) self height width).1 = Raise (NotImplementedError msg)).
Proof.
  split; [reflexivity|].
  intros Hclaim.
  destruct (Hclaim (mkPolygon triangle) (-1) 5) as [msg Hmsg].
  vm_compute in Hmsg. discriminate Hmsg.
Qed.

End PolygonFacts.

(** ** Roles *)

Module RoleFacts.

Import RolePy.

Ltac each_ascii c :=
  destruct c as [[] [] [] [] [] [] [] []]; vm_compute; try reflexivity; try discriminate.

Lemma upper_ascii_idemp c : upper_ascii (upper_ascii c) = upper_ascii c.
Proof. each_ascii c. Qed.

Lemma normalised_ascii_normal c :
  normal_ascii (if Ascii.eqb (upper_ascii c) " " then "_"%char else upper_ascii c) = true.
Proof. each_ascii c. Qed.

Lemma upper_ascii_space c : upper_ascii c = " "%char → c = " "%char.
Proof. each_ascii c. Qed.

Lemma normalised_normal s : normal (replace " " "_" (upper s)) = true.
Proof.
  induction s as [|c s IH]; [reflexivity|].
  cbn [upper replace normal]. by rewrite normalised_ascii_normal, IH.
Qed.

Lemma variant_ascii_normalises c d :
  normal_ascii d = true → variant_ascii c d = true →
  upper_ascii (if Ascii.eqb c " " then "_"%char else c) = d.
Proof.
  unfold normal_ascii, variant_ascii. intros Hd Hv.
  apply andb_true_iff in Hd as [Hup Hsp].
  apply Ascii.eqb_eq in Hup. apply negb_true_iff, Ascii.eqb_neq in Hsp.
  apply orb_true_iff in Hv as [Hv|Hv]; [apply orb_true_iff in Hv as [Hv|Hv]|].
  - apply Ascii.eqb_eq in Hv as ->.
    apply Ascii.eqb_neq in Hsp. by rewrite Hsp.
  - apply Ascii.eqb_eq in Hv.
    destruct (Ascii.eqb_spec c " ") as [->|_]; [|done].
    exfalso. apply Hsp. by rewrite <- Hv.
  - apply andb_true_iff in Hv as [Hc Hu].
    apply Ascii.eqb_eq in Hc as ->. apply Ascii.eqb_eq in Hu as ->. reflexivity.
Qed.

Lemma variant_normalises q name :
  normal name = true → variant_of q name = true →
  upper (replace " " "_" q) = name.
Proof.
  revert name. induction q as [|c q IH]; intros [|d name] Hn Hv; try done.
  cbn [normal] in Hn. cbn [variant_of] in Hv.
  apply andb_true_iff in Hn as [Hd Hn]. apply andb_true_iff in Hv as [Hc Hv].
  cbn [replace upper]. f_equal; [by apply variant_ascii_normalises|by apply IH].
Qed.

Lemma variant_of_refl name : variant_of name name = true.
Proof.
  induction name as [|c name IH]; [reflexivity|].
  cbn [variant_of]. unfold variant_ascii. by rewrite Ascii.eqb_refl, IH.
Qed.

Section Facts.

Context {Client Service : Type}.
Variable execute_on : Client → string → value → Service → outcome value * Service.
Variable repr_set : gset string → string.

Implicit Types (self roles : Roles Client) (w : World Service).

Lemma roles_ok_empty : roles_ok (@Roles_empty Client).
Proof. intros name Hin. cbn in Hin. set_solver. Qed.

Lemma init_loop_ok client results self results' roles :
  init_loop client results self = (results', Return roles) →
  roles_ok self → roles_ok roles.
Proof.
  revert self results'. induction results as [|result rest IH];
    intros self results' Hloop Hok; cbn [init_loop] in Hloop.
  - by injection Hloop as <- <-.
  - destruct (getitem result "name") as [[| | |s| |]|e|] eqn:Hname; try done.
    destruct (setitem result "name" (VStr (replace " " "_" (upper s))))
      as [result'|e|] eqn:Hset; try done.
    cbv zeta in Hloop.
    destruct (init_loop client rest _) as [rest' o] eqn:Hrest.
    injection Hloop as <- ->.
    eapply IH; [exact Hrest|].
    intros name Hin. cbn [valid_roles attrs] in *.
    apply elem_of_union in Hin as [Hin|Hin].
    + destruct (Hok name Hin) as [Hn Hs]. split; [done|].
      destruct (decide (replace " " "_" (upper s) = name)) as [->|Hne].
      * rewrite lookup_insert_eq. by eexists.
      * by rewrite lookup_insert_ne.
    + apply elem_of_singleton in Hin as ->.
      split; [apply normalised_normal|].
      rewrite lookup_insert_eq. by eexists.
Qed.

Lemma Roles__init__ok client w roles w' :
  Roles__init__ execute_on client w = (Return roles, w') → roles_ok roles.
Proof.
  unfold Roles__init__, mbind, M_bind, bind, lift. intros Hinit.
  destruct (_get_roles execute_on client w) as [[res| |] w1]; try done.
  destruct (getitem res "roles") as [rs| |]; try done.
  destruct (iterate rs) as [results| |]; try done.
  destruct (init_loop client results Roles_empty) as [results' o] eqn:Hloop.
  match type of Hinit with
  | context [match ?m w1 with _ => _ end] => destruct (m w1) as [[[]| |] w2]
  end; try done.
  injection Hinit as -> _.
  eapply init_loop_ok; [exact Hloop|apply roles_ok_empty].
Qed.

Lemma Roles__getitem__normal self name role :
  name ∈ valid_roles self → attrs self !! name = Some role →
  ∀ q, upper (replace " " "_" q) = name →
       Roles__getitem__ repr_set self q = Return role.
Proof.
  intros Hin Hrole q Hq. unfold Roles__getitem__. cbv zeta. rewrite Hq.
  rewrite bool_decide_eq_false_2 by (intros Hn; by apply Hn).
  by rewrite Hrole.
Qed.

(** C5: in a Roles object that [Roles.__init__] populated, a query that
    differs from a role's stored name only by letter case and by spaces for
    underscores resolves to the entry stored under that name, the one the
    stored name itself resolves to. *)
Theorem Roles_lookup_insensitive client w roles w' name q :
  Roles__init__ execute_on client w = (Return roles, w') →
  name ∈ valid_roles roles →
  variant_of q name = true →
  ∃ role, attrs roles !! name = Some role
          ∧ Roles__getitem__ repr_set roles name = Return role
          ∧ Roles__getitem__ repr_set roles q = Return role.
Proof.
  intros Hinit Hin Hq.
  destruct (Roles__init__ok _ _ _ _ Hinit name Hin) as [Hn [role Hrole]].
  exists role. split; [done|]. split.
  - apply (Roles__getitem__normal roles name); [done..|].
    apply variant_normalises; [done|apply variant_of_refl].
  - apply (Roles__getitem__normal roles name); [done..|].
    by apply variant_normalises.
Qed.

Lemma _get_roles_cached client w res :
  _get_roles_roles w = Some res →
  _get_roles execute_on client w = (Return res, w).
Proof.
  intros Hc. unfold _get_roles, mbind, M_bind, bind, hasattr_roles, getattr_roles.
  rewrite bool_decide_eq_true_2 by (rewrite Hc; by eexists).
  cbn [negb mret M_ret ret]. by rewrite Hc.
Qed.

Lemma _get_roles_fresh client w res s' :
  _get_roles_roles w = None →
  execute_on client query_str VNone (service w) = (Return res, s') →
  _get_roles execute_on client w = (Return res, fetched w res s').
Proof.
  intros Hc Hex.
  unfold _get_roles, mbind, M_bind, bind, hasattr_roles, getattr_roles,
    client_execute, setattr_roles.
  rewrite bool_decide_eq_false_2 by (rewrite Hc; by intros [? ?]).
  cbn [negb]. rewrite Hex. reflexivity.
Qed.

(** A fetch that raises sets no attribute: the next call fetches again. *)
Lemma _get_roles_failed client w e s' :
  _get_roles_roles w = None →
  execute_on client query_str VNone (service w) = (Raise e, s') →
  ∃ w', _get_roles execute_on client w = (Raise e, w')
        ∧ _get_roles_roles w' = None
        ∧ executed w' = executed w ++ [(query_str, VNone)].
Proof.
  intros Hc Hex.
  unfold _get_roles, mbind, M_bind, bind, hasattr_roles, client_execute.
  rewrite bool_decide_eq_false_2 by (rewrite Hc; by intros [? ?]).
  cbn [negb]. rewrite Hex. eexists. split; [reflexivity|]. by split.
Qed.


(** With the attribute set, constructing a Roles object performs no remote
    call, and the attribute stays set. *)
Lemma Roles__init__cached client w res :
  _get_roles_roles w = Some res →
  ∀ o w', Roles__init__ execute_on client w = (o, w') →
    executed w' = executed w ∧ service w' = service w
    ∧ is_Some (_get_roles_roles w').
Proof.
  intros Hc o w'. unfold Roles__init__, mbind, M_bind, bind, lift.
  rewrite (_get_roles_cached client w res Hc).
  assert (is_Some (_get_roles_roles w)) as Hs by (by eexists).
  destruct (getitem res "roles") as [rs|e|]; [|by intros [= <- <-]..].
  destruct (iterate rs) as [results|e|]; [|by intros [= <- <-]..].
  destruct (init_loop client results Roles_empty) as [results' o'].
  assert (∀ o1 w1, write_back (Service := Service) res results' w = (o1, w1) →
            executed w1 = executed w ∧ service w1 = service w
            ∧ is_Some (_get_roles_roles w1) ∧ o1 = Return tt) as Hwb.
  { intros o1 w1. unfold write_back, setattr_roles.
    destruct (setitem res "roles" (VList results')); intros [= <- <-];
      cbn; (split; [done|split; [done|split; [by eexists|done]]]) || done. }
  destruct rs; cbn [mret M_ret ret];
    try (by intros [= <- <-]).
  destruct (write_back res results' w) as [o1 w1].
  destruct (Hwb o1 w1 eq_refl) as (He & Hsv & Hsome & ->).
  by intros [= <- <-].
Qed.


(** The first construction of a Roles object in a process whose fetch
    succeeds: one remote call, and the attribute is set afterwards. *)
Lemma Roles__init__fresh client w res s' :
  _get_roles_roles w = None →
  execute_on client query_str VNone (service w) = (Return res, s') →
  ∀ o w', Roles__init__ execute_on client w = (o, w') →
    executed w' = executed w ++ [(query_str, VNone)] ∧ service w' = s'
    ∧ is_Some (_get_roles_roles w').
Proof.
  intros Hc Hex o w' Hinit.
  assert (Roles__init__ execute_on client (fetched w res s') = (o, w')) as Hinit'.
  { revert Hinit. unfold Roles__init__, mbind, M_bind, bind.
    rewrite (_get_roles_fresh client w res s' Hc Hex).
    rewrite (_get_roles_cached client (fetched w res s') res eq_refl). done. }
  by destruct (Roles__init__cached client (fetched w res s') res eq_refl o w' Hinit')
    as (-> & -> & Hsome).
Qed.





End Facts.

Import Demo.

Example roles_lookup_admin :
  Roles__getitem__ (λ _, "{...}") roles "admin" =
    Return {| role_client := ();
              field_values := VDict [("id", VStr "r1"); ("name", VStr "ADMIN")] |}.
Proof. vm_compute. reflexivity. Qed.

Example roles_lookup_unknown :
  Roles__getitem__ (λ _, "{...}") roles "nobody" =
    Raise (ValueError "No role named NOBODY exists. Valid names are one of {...}").
Proof. vm_compute. reflexivity. Qed.

(** The names of the cached response are the normalised ones once a Roles
    object was constructed: the loop changed the cached dicts in place. *)
Example roles_cache_after_init :
  _get_roles_roles populated.2 =
    Some (VDict [("roles",
            VList [VDict [("id", VStr "r1"); ("name", VStr "ADMIN")];
                   VDict [("id", VStr "r2"); ("name", VStr "PROJECT_LEAD")]])]).
Proof. vm_compute. reflexivity. Qed.

(** C5 at the demo service: "project lead" resolves to the entry stored as
    PROJECT_LEAD. *)
Lemma Roles_lookup_insensitive_witness :
  ∃ role, attrs roles !! "PROJECT_LEAD" = Some role
          ∧ Roles__getitem__ (λ _, "{...}") roles "PROJECT_LEAD" = Return role
          ∧ Roles__getitem__ (λ _, "{...}") roles "project lead" = Return role.
Proof.
  apply (Roles_lookup_insensitive execute_on (λ _, "{...}") () fresh_world
           roles populated.2 "PROJECT_LEAD" "project lead").
  - vm_compute. reflexivity.
  - vm_compute. reflexivity.
  - reflexivity.
Defined.



Example roles_fetched_until_returned_demo :
  (_get_roles_calls flaky_execute_on [(); (); ()] fresh_world).1 =
    [Raise (Exception "connection refused"); Return roles_response;
     Return roles_response]
  ∧ length (executed (_get_roles_calls flaky_execute_on [(); (); ()] fresh_world).2)
    = 2%nat.
Proof. split; reflexivity. Qed.

End RoleFacts.

(** ** ModelRun *)

Module ModelRunFacts.

Import ModelRunPy.

Section Facts.

Context {Client Service MEAPredictionImport : Type}.
Variable execute_on : Client → string → value → Service → outcome value * Service.
Variable repr_str : string → string.
Variable create_from_file :
  string → Client → string → string → M Service MEAPredictionImport.
Variable create_from_url :
  string → Client → string → string → M Service MEAPredictionImport.
Variable create_from_objects :
  pyobj → Client → string → string → M Service MEAPredictionImport.

Implicit Types (self : ModelRun Client) (w : World Service)
  (status_fn : M Service value).

(** One iteration of the loop whose poll observes COMPLETE. *)
Lemma wait_step_complete fuel self status_fn timeout_seconds sleep_time w res w' :
  status_fn w = (Return res, w') →
  getitem res "status" = Return (VStr "COMPLETE") →
  _wait_until_done repr_str (S fuel) self status_fn timeout_seconds sleep_time w =
    (Return true, w').
Proof.
  intros Hfn Hst. cbn [_wait_until_done]. unfold mbind, M_bind, bind, lift.
  rewrite Hfn, Hst. reflexivity.
Qed.

(** One iteration of the loop whose poll observes FAILED. *)
Lemma wait_step_failed fuel self status_fn timeout_seconds sleep_time w res w' em :
  status_fn w = (Return res, w') →
  getitem res "status" = Return (VStr "FAILED") →
  getitem res "errorMessage" = Return em →
  _wait_until_done repr_str (S fuel) self status_fn timeout_seconds sleep_time w =
    (Raise (Exception ("MEA Import Failed. Details : " +:+ py_str repr_str em)), w').
Proof.
  intros Hfn Hst Hem. cbn [_wait_until_done]. unfold mbind, M_bind, bind, lift.
  rewrite Hfn, Hst. cbn [eq_str String.eqb Ascii.eqb Bool.eqb].
  rewrite Hem. reflexivity.
Qed.

(** One iteration of the loop whose poll observes no terminal state. *)
Lemma wait_step_pending fuel self status_fn timeout_seconds sleep_time w res w' status :
  status_fn w = (Return res, w') →
  getitem res "status" = Return status →
  eq_str status "COMPLETE" = false →
  eq_str status "FAILED" = false →
  _wait_until_done repr_str (S fuel) self status_fn timeout_seconds sleep_time w =
    if timeout_seconds - sleep_time <=? 0
    then (Raise (TimeoutError ("Unable to complete import within " +:+
                   pretty (timeout_seconds - sleep_time) +:+ " seconds.")), w')
    else match time_sleep sleep_time w' with
         | (Return _, w'') =>
             _wait_until_done repr_str fuel self status_fn
               (timeout_seconds - sleep_time) sleep_time w''
         | (Raise e, w'') => (Raise e, w'')
         | (OutOfFuel, w'') => (OutOfFuel, w'')
         end.
Proof.
  intros Hfn Hst Hc Hf. cbn [_wait_until_done]. unfold mbind, M_bind, bind, lift.
  rewrite Hfn, Hst, Hc, Hf.
  destruct (timeout_seconds - sleep_time <=? 0); reflexivity.
Qed.

(** A status function that stays pending makes the loop time out after the
    [n]-th poll, [n] being the first number of polls at which the budget
    left is at most 0. *)
Lemma wait_pending_times_out self status_fn sleep_time :
  pending status_fn → 0 < sleep_time →
  ∀ (k : nat) timeout_seconds w, (Z.to_nat timeout_seconds ≤ k)%nat →
  ∃ (n : nat) w',
    (1 ≤ n)%nat
    ∧ timeout_seconds - Z.of_nat n * sleep_time ≤ 0
    ∧ (n = 1%nat ∨ 0 < timeout_seconds - (Z.of_nat n - 1) * sleep_time)
    ∧ ∀ fuel, (n ≤ fuel)%nat →
        _wait_until_done repr_str fuel self status_fn timeout_seconds sleep_time w =
          (Raise (TimeoutError ("Unable to complete import within " +:+
             pretty (timeout_seconds - Z.of_nat n * sleep_time) +:+ " seconds.")), w').
Proof.
  intros Hpend Hsleep k. induction k as [|k IH]; intros timeout_seconds w Hk.
  - destruct (Hpend w) as (res & w' & status & Hfn & Hst & Hc & Hf).
    exists 1%nat, w'. split; [done|]. split; [lia|]. split; [by left|].
    intros [|fuel] Hfuel; [lia|].
    rewrite (wait_step_pending _ _ _ _ _ _ _ _ _ Hfn Hst Hc Hf).
    replace (timeout_seconds - Z.of_nat 1 * sleep_time)
      with (timeout_seconds - sleep_time) by lia.
    destruct (Z.leb_spec (timeout_seconds - sleep_time) 0); [done|lia].
  - destruct (Hpend w) as (res & w' & status & Hfn & Hst & Hc & Hf).
    destruct (Z.leb_spec (timeout_seconds - sleep_time) 0) as [Hle|Hgt].
    + exists 1%nat, w'. split; [done|]. split; [lia|]. split; [by left|].
      intros [|fuel] Hfuel; [lia|].
      rewrite (wait_step_pending _ _ _ _ _ _ _ _ _ Hfn Hst Hc Hf).
      replace (timeout_seconds - Z.of_nat 1 * sleep_time)
        with (timeout_seconds - sleep_time) by lia.
      destruct (Z.leb_spec (timeout_seconds - sleep_time) 0); [done|lia].
    + destruct (time_sleep sleep_time w') as [o w''] eqn:Hsl.
      assert (o = Return tt) as ->.
      { revert Hsl. unfold time_sleep.
        destruct (Z.ltb_spec sleep_time 0); [lia|]. by intros [= <- _]. }
      destruct (IH (timeout_seconds - sleep_time) w'') as (n & wf & Hn1 & Hn2 & Hn3 & Hrun);
        [lia|].
      exists (S n), wf. split; [lia|]. split; [lia|]. split.
      { right. destruct Hn3 as [->|Hn3]; lia. }
      intros [|fuel] Hfuel; [lia|].
      rewrite (wait_step_pending _ _ _ _ _ _ _ _ _ Hfn Hst Hc Hf).
      destruct (Z.leb_spec (timeout_seconds - sleep_time) 0); [lia|].
      rewrite Hsl. rewrite Hrun by lia.
      replace (timeout_seconds - sleep_time - Z.of_nat n * sleep_time)
        with (timeout_seconds - Z.of_nat (S n) * sleep_time) by lia.
      reflexivity.
Qed.

(** What [upsert_labels] does with a non-empty list of ids whose task is
    created: it polls [labels_status_fn] with a sleep time of 5 seconds. *)
Lemma upsert_labels_polls fuel self label_ids timeout_seconds w res s' task_id :
  label_ids ≠ [] →
  execute_on (client self) labels_create_task_query_str
    (VDict [("modelRunId", VStr (uid self)); ("labelIds", ids label_ids)])
    (service w) = (Return res, s') →
  getitem res labels_mutation_name = Return task_id →
  upsert_labels execute_on repr_str fuel self label_ids timeout_seconds w =
    _wait_until_done repr_str fuel self (labels_status_fn execute_on self task_id)
      timeout_seconds 5
      {| service := s';
         executed := executed w ++
           [(labels_create_task_query_str,
             VDict [("modelRunId", VStr (uid self)); ("labelIds", ids label_ids)])];
         _get_roles_roles := _get_roles_roles w;
         files := files w;
         slept := slept w |}.
Proof.
  intros Hne Hex Htask. unfold upsert_labels.
  destruct label_ids as [|id label_ids]; [done|].
  destruct (Z.ltb_spec (Z.of_nat (length (id :: label_ids))) 1) as [Hlt|_];
    [cbn [length] in Hlt; lia|].
  unfold mbind, M_bind, bind, client_execute, lift.
  rewrite Hex, Htask. reflexivity.
Qed.

Lemma upsert_data_rows_polls fuel self data_row_ids timeout_seconds w res s' task_id :
  data_row_ids ≠ [] →
  execute_on (client self) data_rows_create_task_query_str
    (VDict [("modelRunId", VStr (uid self)); ("dataRowIds", ids data_row_ids)])
    (service w) = (Return res, s') →
  getitem res data_rows_mutation_name = Return task_id →
  upsert_data_rows execute_on repr_str fuel self data_row_ids timeout_seconds w =
    _wait_until_done repr_str fuel self (data_rows_status_fn execute_on self task_id)
      timeout_seconds 5
      {| service := s';
         executed := executed w ++
           [(data_rows_create_task_query_str,
             VDict [("modelRunId", VStr (uid self)); ("dataRowIds", ids data_row_ids)])];
         _get_roles_roles := _get_roles_roles w;
         files := files w;
         slept := slept w |}.
Proof.
  intros Hne Hex Htask. unfold upsert_data_rows.
  destruct data_row_ids as [|id data_row_ids]; [done|].
  destruct (Z.ltb_spec (Z.of_nat (length (id :: data_row_ids))) 1) as [Hlt|_];
    [cbn [length] in Hlt; lia|].
  unfold mbind, M_bind, bind, client_execute, lift.
  rewrite Hex, Htask. reflexivity.
Qed.

Lemma time_sleep_returned secs w u w' :
  time_sleep secs w = (Return u, w') → 0 ≤ secs.
Proof. unfold time_sleep. by destruct (Z.ltb_spec secs 0). Qed.

(** The loop after [k] pending polls with budget left is the loop started
    after them with what is left of the budget. *)
Lemma wait_after_pending_polls self status_fn sleep_time (k : nat) :
  ∀ fuel timeout_seconds w w_k,
    after_pending_polls status_fn sleep_time k w = Some w_k →
    (k = 0%nat ∨ 0 < timeout_seconds - Z.of_nat k * sleep_time) →
    _wait_until_done repr_str (k + fuel) self status_fn timeout_seconds sleep_time w =
      _wait_until_done repr_str fuel self status_fn
        (timeout_seconds - Z.of_nat k * sleep_time) sleep_time w_k.
Proof.
  induction k as [|k IH]; intros fuel timeout_seconds w w_k Hpolls Hbudget.
  - cbn [after_pending_polls] in Hpolls. injection Hpolls as <-.
    cbn [Nat.add]. by rewrite Z.sub_0_r.
  - cbn [after_pending_polls] in Hpolls.
    destruct (status_fn w) as [[res|e|] w1] eqn:Hfn; try done.
    destruct (getitem res "status") as [status|e|] eqn:Hst; try done.
    destruct (eq_str status "COMPLETE") eqn:Hc; [done|].
    destruct (eq_str status "FAILED") eqn:Hf; [done|].
    cbn [orb] in Hpolls.
    destruct (time_sleep sleep_time w1) as [[[]|e|] w2] eqn:Hsl; try done.
    pose proof (time_sleep_returned _ _ _ _ Hsl) as Hs.
    assert (0 ≤ Z.of_nat k * sleep_time) as Hks by nia.
    destruct Hbudget as [?|Hbudget]; [done|].
    change (S k + fuel)%nat with (S (k + fuel)).
    rewrite (wait_step_pending _ _ _ _ _ _ _ _ _ Hfn Hst Hc Hf).
    destruct (Z.leb_spec (timeout_seconds - sleep_time) 0) as [Hle|_]; [lia|].
    rewrite Hsl, (IH fuel (timeout_seconds - sleep_time) w2 w_k Hpolls) by lia.
    f_equal. lia.
Qed.

(** Under a status that stays pending, the polls go on until the budget
    left is at most 0. *)
Lemma pending_polls_exist status_fn sleep_time :
  pending status_fn → 0 < sleep_time →
  ∀ (m : nat) timeout_seconds w, (Z.to_nat timeout_seconds ≤ m)%nat →
  ∃ (k : nat) w_k,
    after_pending_polls status_fn sleep_time k w = Some w_k
    ∧ (k = 0%nat ∨ 0 < timeout_seconds - Z.of_nat k * sleep_time)
    ∧ timeout_seconds - (Z.of_nat k + 1) * sleep_time ≤ 0.
Proof.
  intros Hpend Hsleep m. induction m as [|m IH]; intros timeout_seconds w Hm.
  - exists O, w. split; [done|]. split; [by left|lia].
  - destruct (Z.leb_spec (timeout_seconds - sleep_time) 0) as [Hle|Hgt].
    { exists O, w. split; [done|]. split; [by left|lia]. }
    destruct (Hpend w) as (res & w1 & status & Hfn & Hst & Hc & Hf).
    destruct (time_sleep sleep_time w1) as [o w2] eqn:Hsl.
    assert (o = Return tt) as ->.
    { revert Hsl. unfold time_sleep.
      destruct (Z.ltb_spec sleep_time 0); [lia|]. by intros [= <- _]. }
    destruct (IH (timeout_seconds - sleep_time) w2) as (k & w_k & Hk & Hb & Hl); [lia|].
    exists (S k), w_k. split; [|split].
    + cbn [after_pending_polls]. by rewrite Hfn, Hst, Hc, Hf, Hsl.
    + right. destruct Hb as [->|Hb]; lia.
    + lia.
Qed.

(** C4: the polling loop.  Let [k] polls have answered with a status that
    is neither COMPLETE nor FAILED, each followed by the sleep, with budget
    left ([timeout_seconds] minus [sleep_time] per poll) after each of them,
    and let [w_k] be the world they leave ([k] is 0 and [w_k] the initial
    world for the first poll).  Then, for every fuel above [k]:
    - when the next poll answers FAILED, the loop raises Exception with a
      message that ends with the answer's errorMessage;
    - when it answers COMPLETE, the loop returns True;
    - when it answers neither and the budget left after it is at most 0, the
      loop raises TimeoutError, whose message carries that budget;
    each time in the world this last poll leaves.
    When every poll answers neither COMPLETE nor FAILED and the sleep time is
    positive (it is 5 in [upsert_labels] and [upsert_data_rows]), such a last
    poll exists: the loop raises TimeoutError.
    [except TimeoutError] catches the timeout and not the failure. *)
Theorem wait_until_done_outcomes self status_fn timeout_seconds sleep_time w :
  (∀ (k : nat) w_k fuel,
     after_pending_polls status_fn sleep_time k w = Some w_k →
     (k = 0%nat ∨ 0 < timeout_seconds - Z.of_nat k * sleep_time) →
     (k < fuel)%nat →
     (∀ res w' errorMessage,
        status_fn w_k = (Return res, w') →
        getitem res "status" = Return (VStr "FAILED") →
        getitem res "errorMessage" = Return errorMessage →
        _wait_until_done repr_str fuel self status_fn timeout_seconds sleep_time w =
          (Raise (Exception ("MEA Import Failed. Details : " +:+
                             py_str repr_str errorMessage)), w'))
     ∧ (∀ res w',
          status_fn w_k = (Return res, w') →
          getitem res "status" = Return (VStr "COMPLETE") →
          _wait_until_done repr_str fuel self status_fn timeout_seconds sleep_time w =
            (Return true, w'))
     ∧ (∀ res w' status,
          status_fn w_k = (Return res, w') →
          getitem res "status" = Return status →
          eq_str status "COMPLETE" = false →
          eq_str status "FAILED" = false →
          timeout_seconds - (Z.of_nat k + 1) * sleep_time ≤ 0 →
          _wait_until_done repr_str fuel self status_fn timeout_seconds sleep_time w =
            (Raise (TimeoutError ("Unable to complete import within " +:+
               pretty (timeout_seconds - (Z.of_nat k + 1) * sleep_time) +:+
               " seconds.")), w')))
  ∧ (pending status_fn → 0 < sleep_time →
     ∃ (k : nat) w_k res w',
       after_pending_polls status_fn sleep_time k w = Some w_k
       ∧ (k = 0%nat ∨ 0 < timeout_seconds - Z.of_nat k * sleep_time)
       ∧ timeout_seconds - (Z.of_nat k + 1) * sleep_time ≤ 0
       ∧ status_fn w_k = (Return res, w')
       ∧ ∀ fuel, (k < fuel)%nat →
           _wait_until_done repr_str fuel self status_fn timeout_seconds sleep_time w =
             (Raise (TimeoutError ("Unable to complete import within " +:+
                pretty (timeout_seconds - (Z.of_nat k + 1) * sleep_time) +:+
                " seconds.")), w'))
  ∧ (∀ msg msg',
       catches CTimeoutError (TimeoutError msg) = true
       ∧ catches CTimeoutError (Exception msg') = false
       ∧ class_of (TimeoutError msg) ≠ class_of (Exception msg')).
Proof.
  assert (∀ (k : nat) w_k fuel res w' status,
    after_pending_polls status_fn sleep_time k w = Some w_k →
    (k = 0%nat ∨ 0 < timeout_seconds - Z.of_nat k * sleep_time) →
    (k < fuel)%nat →
    status_fn w_k = (Return res, w') →
    getitem res "status" = Return status →
    eq_str status "COMPLETE" = false →
    eq_str status "FAILED" = false →
    timeout_seconds - (Z.of_nat k + 1) * sleep_time ≤ 0 →
    _wait_until_done repr_str fuel self status_fn timeout_seconds sleep_time w =
      (Raise (TimeoutError ("Unable to complete import within " +:+
         pretty (timeout_seconds - (Z.of_nat k + 1) * sleep_time) +:+
         " seconds.")), w')) as Htimeout.
  { intros k w_k fuel res w' status Hpolls Hbudget Hfuel Hfn Hst Hc Hf Hleft.
    replace fuel with (k + S (fuel - k - 1))%nat by lia.
    rewrite (wait_after_pending_polls self status_fn sleep_time k _ _ _ _
               Hpolls Hbudget).
    rewrite (wait_step_pending _ _ _ _ _ _ _ _ _ Hfn Hst Hc Hf).
    replace (timeout_seconds - Z.of_nat k * sleep_time - sleep_time)
      with (timeout_seconds - (Z.of_nat k + 1) * sleep_time) by lia.
    by destruct (Z.leb_spec (timeout_seconds - (Z.of_nat k + 1) * sleep_time) 0);
      [|lia]. }
  split; [|split].
  - intros k w_k fuel Hpolls Hbudget Hfuel. split; [|split].
    + intros res w' em Hfn Hst Hem.
      replace fuel with (k + S (fuel - k - 1))%nat by lia.
      rewrite (wait_after_pending_polls self status_fn sleep_time k _ _ _ _
                 Hpolls Hbudget).
      by apply wait_step_failed with (res := res).
    + intros res w' Hfn Hst.
      replace fuel with (k + S (fuel - k - 1))%nat by lia.
      rewrite (wait_after_pending_polls self status_fn sleep_time k _ _ _ _
                 Hpolls Hbudget).
      by apply wait_step_complete with (res := res).
    + intros res w' status. by apply Htimeout.
  - intros Hpend Hsleep.
    destruct (pending_polls_exist status_fn sleep_time Hpend Hsleep
                (Z.to_nat timeout_seconds) timeout_seconds w)
      as (k & w_k & Hpolls & Hbudget & Hleft); [done|].
    destruct (Hpend w_k) as (res & w' & status & Hfn & Hst & Hc & Hf).
    exists k, w_k, res, w'. split; [done|]. split; [done|]. split; [done|].
    split; [done|]. intros fuel Hfuel. by eapply Htimeout.
  - intros msg msg'. split; [done|]. split; [done|]. discriminate.
Qed.

(** C10: with an empty list of ids, [upsert_labels] and [upsert_data_rows]
    raise ValueError and leave the world as it was: nothing was executed on
    the remote service, whatever the fuel and the timeout. *)
Theorem upsert_empty_raises fuel self timeout_seconds w :
  (let '(o, w') := upsert_labels execute_on repr_str fuel self [] timeout_seconds w in
   o = Raise (ValueError "Must provide at least one label id")
   ∧ executed w' = executed w ∧ service w' = service w ∧ w' = w)
  ∧ (let '(o, w') := upsert_data_rows execute_on repr_str fuel self [] timeout_seconds w in
     o = Raise (ValueError "Must provide at least one data row id")
     ∧ executed w' = executed w ∧ service w' = service w ∧ w' = w).
Proof. split; cbn [upsert_labels upsert_data_rows length]; done. Qed.

Lemma add_predictions_invalid self name predictions w :
  is_str predictions = false → is_Path predictions = false →
  is_Iterable predictions = false →
  add_predictions create_from_file create_from_url create_from_objects
       self name predictions w =
    (Raise (ValueError ("Invalid predictions given of type: " +:+
                        type_repr predictions)), w).
Proof.
  intros Hs Hp Hi. unfold add_predictions. by rewrite Hs, Hp, Hi.
Qed.

Lemma add_predictions_path self name predictions w :
  is_str predictions || is_Path predictions = true →
  add_predictions create_from_file create_from_url create_from_objects
       self name predictions w =
    if bool_decide (str_of predictions ∈ files w)
    then create_from_file (str_of predictions) (client self) (uid self) name w
    else create_from_url (str_of predictions) (client self) (uid self) name w.
Proof.
  intros Hsp. unfold add_predictions. rewrite Hsp.
  unfold mbind, M_bind, bind, os_path_exists.
  by destruct (bool_decide (str_of predictions ∈ files w)).
Qed.

Lemma add_predictions_objects self name predictions w :
  is_str predictions = false → is_Path predictions = false →
  is_Iterable predictions = true →
  add_predictions create_from_file create_from_url create_from_objects
       self name predictions w =
    create_from_objects predictions (client self) (uid self) name w.
Proof.
  intros Hs Hp Hi. unfold add_predictions. by rewrite Hs, Hp, Hi.
Qed.

(** C7: [add_predictions] raises its ValueError, whose message names the
    type of the argument, when [predictions] is neither a str nor a Path nor
    an Iterable.  For a str or a Path it is the file import when the path
    exists and the URL import when it does not, and for any other Iterable
    the object import; so, when none of the three imports raises, the call
    raises exactly when the argument is of none of the three kinds. *)
Theorem add_predictions_dispatch self name predictions w :
  (is_str predictions = false → is_Path predictions = false →
   is_Iterable predictions = false →
   add_predictions create_from_file create_from_url create_from_objects
       self name predictions w =
     (Raise (ValueError ("Invalid predictions given of type: " +:+
                         type_repr predictions)), w))
  ∧ (is_str predictions || is_Path predictions = true →
     str_of predictions ∈ files w →
     add_predictions create_from_file create_from_url create_from_objects
       self name predictions w =
       create_from_file (str_of predictions) (client self) (uid self) name w)
  ∧ (is_str predictions || is_Path predictions = true →
     str_of predictions ∉ files w →
     add_predictions create_from_file create_from_url create_from_objects
       self name predictions w =
       create_from_url (str_of predictions) (client self) (uid self) name w)
  ∧ (is_str predictions = false → is_Path predictions = false →
     is_Iterable predictions = true →
     add_predictions create_from_file create_from_url create_from_objects
       self name predictions w =
       create_from_objects predictions (client self) (uid self) name w)
  ∧ (constructors_return create_from_file create_from_url create_from_objects →
     (∃ msg, (add_predictions create_from_file create_from_url create_from_objects
       self name predictions w).1 = Raise (ValueError msg))
     ↔ is_str predictions || is_Path predictions || is_Iterable predictions = false).
Proof.
  split; [|split; [|split; [|split]]].
  - apply add_predictions_invalid.
  - intros Hsp Hex. rewrite add_predictions_path by done.
    by rewrite bool_decide_eq_true_2.
  - intros Hsp Hex. rewrite add_predictions_path by done.
    by rewrite bool_decide_eq_false_2.
  - apply add_predictions_objects.
  - intros Hret.
    destruct (Hret predictions (str_of predictions) (client self) (uid self) name w)
      as (Hfile & Hurl & Hobj).
    destruct (is_str predictions || is_Path predictions) eqn:Hsp.
    + rewrite add_predictions_path by done. cbn [orb]. split; [|done].
      intros [msg Hmsg]. revert Hmsg Hfile Hurl.
      destruct (bool_decide _); by intros ->.
    + apply orb_false_iff in Hsp as [Hs Hp]. cbn [orb].
      destruct (is_Iterable predictions) eqn:Hi.
      * rewrite add_predictions_objects by done. split; [|done].
        intros [msg Hmsg]. revert Hobj. by rewrite Hmsg.
      * rewrite add_predictions_invalid by done. split; [done|].
        intros _. by eexists.
Qed.

End Facts.

Import Demo.

(** The loop on the demo service: the task is created, two polls see it
    IN_PROGRESS, the third sees it COMPLETE. *)
Example upsert_labels_completes :
  let '(o, w') := upsert_labels execute_on repr_str 20 run ["label-1"] 60 fresh_world in
  o = Return true ∧ slept w' = [5; 5] ∧ length (executed w') = 4%nat.
Proof. vm_compute. done. Qed.

(** A budget of 12 seconds is used up by the third poll. *)
Example running_times_out :
  (_wait_until_done repr_str 10 run running_status 12 5 fresh_world).1 =
    Raise (TimeoutError "Unable to complete import within -3 seconds.").
Proof. vm_compute. reflexivity. Qed.

(** Too little fuel for the polls the budget allows. *)
Example running_out_of_fuel :
  (_wait_until_done repr_str 2 run running_status 12 5 fresh_world).1 = OutOfFuel.
Proof. vm_compute. reflexivity. Qed.

Lemma running_status_pending : pending running_status.
Proof.
  intros w. exists (VDict [("status", VStr "IN_PROGRESS"); ("errorMessage", VNone)]),
    w, (VStr "IN_PROGRESS").
  repeat split; reflexivity.
Qed.

Lemma after_two_polls_eq :
  after_pending_polls task_status 5 2 polling_world = Some after_two_polls.
Proof. vm_compute. reflexivity. Qed.

(** C4 at the demo service, whose task is IN_PROGRESS at two polls and
    COMPLETE at the third, at a status that answers FAILED at once, and at a
    status that stays IN_PROGRESS under a budget of 12 seconds. *)
Lemma wait_until_done_outcomes_witness :
  _wait_until_done repr_str 3 run task_status 60 5 polling_world =
    (Return true, (task_status after_two_polls).2)
  ∧ _wait_until_done repr_str 1 run failed_status 60 5 fresh_world =
      (Raise (Exception ("MEA Import Failed. Details : " +:+
                         py_str repr_str (VStr "boom"))), fresh_world)
  ∧ (∃ (k : nat) w_k res w',
       after_pending_polls running_status 5 k fresh_world = Some w_k
       ∧ (k = 0%nat ∨ 0 < 12 - Z.of_nat k * 5)
       ∧ 12 - (Z.of_nat k + 1) * 5 ≤ 0
       ∧ running_status w_k = (Return res, w')
       ∧ ∀ fuel, (k < fuel)%nat →
           _wait_until_done repr_str fuel run running_status 12 5 fresh_world =
             (Raise (TimeoutError ("Unable to complete import within " +:+
                pretty (12 - (Z.of_nat k + 1) * 5) +:+ " seconds.")), w')).
Proof.
  split; [|split].
  - apply (proj1 (proj2 (proj1
             (wait_until_done_outcomes repr_str run task_status 60 5 polling_world)
             2%nat after_two_polls 3%nat after_two_polls_eq
             ltac:(right; lia) ltac:(lia)))
             (VDict [("status", VStr "COMPLETE"); ("errorMessage", VNone)]));
      reflexivity.
  - apply (proj1 (proj1
             (wait_until_done_outcomes repr_str run failed_status 60 5 fresh_world)
             O fresh_world 1%nat eq_refl ltac:(by left) ltac:(lia))
             (VDict [("status", VStr "FAILED"); ("errorMessage", VStr "boom")]));
      reflexivity.
  - apply (proj1 (proj2
             (wait_until_done_outcomes repr_str run running_status 12 5 fresh_world)));
      [exact running_status_pending|lia].
Defined.

Example task_completes_at_third_poll :
  (task_status after_two_polls).1 =
    Return (VDict [("status", VStr "COMPLETE"); ("errorMessage", VNone)])
  ∧ slept after_two_polls = [5; 5]
  ∧ slept (_wait_until_done repr_str 3 run task_status 60 5 polling_world).2 = [5; 5].
Proof. vm_compute. done. Qed.

Lemma demo_constructors_return : constructors_return from_file from_url from_objects.
Proof. intros o s c m n w. repeat split. Qed.

(** C7 at an int, at a path that exists, at a URL and at a list. *)
Lemma add_predictions_dispatch_witness :
  add_predictions from_file from_url from_objects run "import" (Obj (VInt 5)) fresh_world =
    (Raise (ValueError ("Invalid predictions given of type: " +:+
                        type_repr (Obj (VInt 5)))), fresh_world)
  ∧ add_predictions from_file from_url from_objects run "import"
      (PathObj "preds.ndjson") fresh_world =
    from_file "preds.ndjson" () "run-1" "import" fresh_world
  ∧ add_predictions from_file from_url from_objects run "import"
      (Obj (VStr "https://host/preds.ndjson")) fresh_world =
    from_url "https://host/preds.ndjson" () "run-1" "import" fresh_world
  ∧ add_predictions from_file from_url from_objects run "import"
      (Obj (VList [VDict []])) fresh_world =
    from_objects (Obj (VList [VDict []])) () "run-1" "import" fresh_world
  ∧ ((∃ msg, (add_predictions from_file from_url from_objects run "import"
                (Obj VNone) fresh_world).1 = Raise (ValueError msg))
     ↔ is_str (Obj VNone) || is_Path (Obj VNone) || is_Iterable (Obj VNone) = false).
Proof.
  split; [|split; [|split; [|split]]].
  - apply (proj1 (add_predictions_dispatch from_file from_url from_objects
                    run "import" (Obj (VInt 5)) fresh_world)); reflexivity.
  - apply (proj1 (proj2 (add_predictions_dispatch from_file from_url from_objects
                    run "import" (PathObj "preds.ndjson") fresh_world)));
      [reflexivity|].
    cbn [str_of files fresh_world]. apply elem_of_singleton. reflexivity.
  - apply (proj1 (proj2 (proj2 (add_predictions_dispatch from_file from_url from_objects
                    run "import" (Obj (VStr "https://host/preds.ndjson")) fresh_world))));
      [reflexivity|].
    intros Hin. cbn [str_of files fresh_world] in Hin.
    apply elem_of_singleton in Hin. discriminate Hin.
  - apply (proj1 (proj2 (proj2 (proj2 (add_predictions_dispatch from_file from_url
                    from_objects run "import" (Obj (VList [VDict []])) fresh_world)))));
      reflexivity.
  - apply (proj2 (proj2 (proj2 (proj2 (add_predictions_dispatch from_file from_url
                    from_objects run "import" (Obj VNone) fresh_world))))).
    exact demo_constructors_return.
Defined.

End ModelRunFacts.

(** * Further properties of the code *)

(** ** The polling loop and its callers *)

Module ModelRunMore.

Import ModelRunPy.

Section More.

Context {Client Service : Type}.
Variable execute_on : Client → string → value → Service → outcome value * Service.
Variable repr_str : string → string.

Implicit Types (self : ModelRun Client) (w : World Service)
  (status_fn : M Service value).

(** One iteration of the loop, whatever the poll answers. *)
Lemma wait_unfold fuel self status_fn timeout_seconds sleep_time w :
  _wait_until_done repr_str (S fuel) self status_fn timeout_seconds sleep_time w =
    match status_fn w with
    | (Return res, w1) =>
        match getitem res "status" with
        | Return status =>
            if eq_str status "COMPLETE" then (Return true, w1)
            else if eq_str status "FAILED" then
              match getitem res "errorMessage" with
              | Return em =>
                  (Raise (Exception ("MEA Import Failed. Details : " +:+
                                     py_str repr_str em)), w1)
              | Raise e => (Raise e, w1)
              | OutOfFuel => (OutOfFuel, w1)
              end
            else if timeout_seconds - sleep_time <=? 0 then
              (Raise (TimeoutError ("Unable to complete import within " +:+
                        pretty (timeout_seconds - sleep_time) +:+ " seconds.")), w1)
            else
              match time_sleep sleep_time w1 with
              | (Return _, w2) =>
                  _wait_until_done repr_str fuel self status_fn
                    (timeout_seconds - sleep_time) sleep_time w2
              | (Raise e, w2) => (Raise e, w2)
              | (OutOfFuel, w2) => (OutOfFuel, w2)
              end
        | Raise e => (Raise e, w1)
        | OutOfFuel => (OutOfFuel, w1)
        end
    | (Raise e, w1) => (Raise e, w1)
    | (OutOfFuel, w1) => (OutOfFuel, w1)
    end.
Proof.
  cbn [_wait_until_done]. unfold mbind, M_bind, bind, lift.
  destruct (status_fn w) as [[res|e|] w1]; try reflexivity.
  destruct (getitem res "status") as [status|e|]; try reflexivity.
  destruct (eq_str status "COMPLETE"); [reflexivity|].
  destruct (eq_str status "FAILED").
  - destruct (getitem res "errorMessage"); reflexivity.
  - destruct (timeout_seconds - sleep_time <=? 0); reflexivity.
Qed.

Lemma time_sleep_nonneg secs w :
  0 ≤ secs →
  time_sleep secs w =
    (Return tt, {| service := service w; executed := executed w;
                   _get_roles_roles := _get_roles_roles w;
                   files := files w; slept := slept w ++ [secs] |}).
Proof. intros Hs. unfold time_sleep. by destruct (Z.ltb_spec secs 0); [lia|]. Qed.

Lemma eq_str_true status s : eq_str status s = true → status = VStr s.
Proof. destruct status; try done. cbn [eq_str]. by intros ->%String.eqb_eq. Qed.

(** The sleeps and the remote calls of the loop, for a status function that
    performs one remote call and does not sleep itself. *)
Lemma wait_sleeps_and_calls self status_fn sleep_time :
  0 < sleep_time →
  (∀ w, slept (status_fn w).2 = slept w
        ∧ length (executed (status_fn w).2) = S (length (executed w))) →
  ∀ fuel timeout_seconds w,
    let w' := (_wait_until_done repr_str fuel self status_fn
                 timeout_seconds sleep_time w).2 in
    ∃ k : nat,
      slept w' = slept w ++ replicate k sleep_time
      ∧ (k = 0%nat ∨ Z.of_nat k * sleep_time < timeout_seconds)
      ∧ (length (executed w') ≤ length (executed w) + k + 1)%nat.
Proof.
  intros Hsleep Hfn fuel. induction fuel as [|fuel IH]; intros timeout_seconds w.
  { exists O. cbn. rewrite app_nil_r. repeat split; [by left|lia]. }
  cbv zeta. rewrite wait_unfold.
  destruct (Hfn w) as [Hsl Hex].
  assert (∃ k : nat,
    slept (status_fn w).2 = slept w ++ replicate k sleep_time
    ∧ (k = 0%nat ∨ Z.of_nat k * sleep_time < timeout_seconds)
    ∧ (length (executed (status_fn w).2) ≤ length (executed w) + k + 1)%nat) as Hstop.
  { exists O. cbn [replicate]. rewrite app_nil_r. repeat split; [done|by left|lia]. }
  destruct (status_fn w) as [[res|e|] w1]; cbn [snd] in *; try exact Hstop.
  destruct (getitem res "status") as [status|e|]; cbn [snd]; try exact Hstop.
  destruct (eq_str status "COMPLETE"); cbn [snd]; [exact Hstop|].
  destruct (eq_str status "FAILED").
  { destruct (getitem res "errorMessage"); exact Hstop. }
  destruct (Z.leb_spec (timeout_seconds - sleep_time) 0) as [Hle|Hgt];
    cbn [snd]; [exact Hstop|].
  rewrite time_sleep_nonneg by lia.
  match goal with
  | |- context [_wait_until_done _ _ _ _ ?t _ ?w2] =>
      destruct (IH t w2) as (k & Hk1 & Hk2 & Hk3)
  end.
  cbn [slept executed] in Hk1, Hk3.
  exists (S k). split; [|split].
  - rewrite Hk1, Hsl, <- app_assoc. reflexivity.
  - right. destruct Hk2 as [->|Hk2]; lia.
  - rewrite Hex in Hk3. lia.
Qed.

Lemma labels_status_fn_effect self task_id w :
  slept (labels_status_fn execute_on self task_id w).2 = slept w
  ∧ length (executed (labels_status_fn execute_on self task_id w).2)
    = S (length (executed w)).
Proof.
  unfold labels_status_fn, mbind, M_bind, bind, client_execute, lift.
  destruct (execute_on _ _ _ _) as [[r|e|] s']; cbn [snd slept executed];
    rewrite ?length_app; cbn [length]; (split; [done|lia]).
Qed.

Lemma data_rows_status_fn_effect self task_id w :
  slept (data_rows_status_fn execute_on self task_id w).2 = slept w
  ∧ length (executed (data_rows_status_fn execute_on self task_id w).2)
    = S (length (executed w)).
Proof.
  unfold data_rows_status_fn, mbind, M_bind, bind, client_execute, lift.
  destruct (execute_on _ _ _ _) as [[r|e|] s']; cbn [snd slept executed];
    rewrite ?length_app; cbn [length]; (split; [done|lia]).
Qed.

(** X1: whatever the service answers and however a call of [upsert_labels]
    or [upsert_data_rows] ends, it has slept [k] times 5 seconds with
    [k * 5] less than [timeout_seconds] (or not at all), and has performed at
    most [k + 2] remote calls: the task creation and one poll more than it
    slept. *)
Theorem upsert_sleeps_within_budget fuel self ids timeout_seconds w :
  (let w' := (upsert_labels execute_on repr_str fuel self ids timeout_seconds w).2 in
   ∃ k : nat,
     slept w' = slept w ++ replicate k 5
     ∧ (k = 0%nat ∨ Z.of_nat k * 5 < timeout_seconds)
     ∧ (length (executed w') ≤ length (executed w) + k + 2)%nat)
  ∧ (let w' := (upsert_data_rows execute_on repr_str fuel self ids timeout_seconds w).2 in
     ∃ k : nat,
       slept w' = slept w ++ replicate k 5
       ∧ (k = 0%nat ∨ Z.of_nat k * 5 < timeout_seconds)
       ∧ (length (executed w') ≤ length (executed w) + k + 2)%nat).
Proof.
  assert (∀ w1 : World Service,
    slept w1 = slept w → (length (executed w1) ≤ S (length (executed w)))%nat →
    ∃ k : nat, slept w1 = slept w ++ replicate k 5
      ∧ (k = 0%nat ∨ Z.of_nat k * 5 < timeout_seconds)
      ∧ (length (executed w1) ≤ length (executed w) + k + 2)%nat) as Hstop.
  { intros w1 Hs He. exists O. cbn [replicate]. rewrite app_nil_r.
    split; [done|]. split; [by left|lia]. }
  split; cbv zeta.
  - unfold upsert_labels.
    destruct (Z.of_nat (length ids) <? 1); [apply Hstop; cbn; [done|lia]|].
    unfold mbind, M_bind, bind, client_execute, lift.
    destruct (execute_on _ _ _ _) as [[res|e|] s'];
      try (apply Hstop; cbn; rewrite ?length_app; cbn; [done|lia]).
    destruct (getitem res labels_mutation_name) as [task_id|e|];
      try (apply Hstop; cbn; rewrite ?length_app; cbn; [done|lia]).
    match goal with
    | |- context [_wait_until_done _ _ _ ?fn ?t _ ?w1] =>
        destruct (wait_sleeps_and_calls self fn 5 ltac:(lia)
                    (labels_status_fn_effect self task_id) fuel t w1)
          as (k & Hk1 & Hk2 & Hk3)
    end.
    cbn [slept executed] in Hk1, Hk3. rewrite length_app in Hk3. cbn [length] in Hk3.
    exists k. split; [done|]. split; [done|lia].
  - unfold upsert_data_rows.
    destruct (Z.of_nat (length ids) <? 1); [apply Hstop; cbn; [done|lia]|].
    unfold mbind, M_bind, bind, client_execute, lift.
    destruct (execute_on _ _ _ _) as [[res|e|] s'];
      try (apply Hstop; cbn; rewrite ?length_app; cbn; [done|lia]).
    destruct (getitem res data_rows_mutation_name) as [task_id|e|];
      try (apply Hstop; cbn; rewrite ?length_app; cbn; [done|lia]).
    match goal with
    | |- context [_wait_until_done _ _ _ ?fn ?t _ ?w1] =>
        destruct (wait_sleeps_and_calls self fn 5 ltac:(lia)
                    (data_rows_status_fn_effect self task_id) fuel t w1)
          as (k & Hk1 & Hk2 & Hk3)
    end.
    cbn [slept executed] in Hk1, Hk3. rewrite length_app in Hk3. cbn [length] in Hk3.
    exists k. split; [done|]. split; [done|lia].
Qed.

(** The loop ends within [fuel] iterations when [fuel] sleeps cover the
    budget, for a status function that ends itself. *)
Lemma wait_terminates self status_fn sleep_time :
  0 < sleep_time →
  (∀ w, (status_fn w).1 ≠ OutOfFuel) →
  ∀ fuel timeout_seconds w,
    (1 ≤ fuel)%nat → timeout_seconds ≤ Z.of_nat fuel * sleep_time →
    (_wait_until_done repr_str fuel self status_fn timeout_seconds sleep_time w).1
      ≠ OutOfFuel.
Proof.
  intros Hsleep Hfn fuel. induction fuel as [|fuel IH];
    intros timeout_seconds w Hfuel Hbudget; [lia|].
  rewrite wait_unfold. specialize (Hfn w).
  destruct (status_fn w) as [[res|e|] w1]; cbn [fst] in *; try done.
  destruct (getitem res "status") as [status|e|] eqn:Hst; cbn [fst]; try done.
  - destruct (eq_str status "COMPLETE"); [done|].
    destruct (eq_str status "FAILED").
    + destruct (getitem res "errorMessage") eqn:Hem; cbn [fst]; try done.
      destruct res; discriminate Hem || (cbn in Hem; by destruct (dict_get _ _)).
    + destruct (Z.leb_spec (timeout_seconds - sleep_time) 0) as [Hle|Hgt]; [done|].
      rewrite time_sleep_nonneg by lia. apply IH; nia.
  - destruct res; discriminate Hst || (cbn in Hst; by destruct (dict_get _ _)).
Qed.

(** X2: [upsert_labels] and [upsert_data_rows] end: when [client.execute]
    always returns or raises, the loop needs at most one iteration per 5
    seconds of budget (and one at least), whatever the service answers. *)
Theorem upsert_terminates fuel self ids timeout_seconds w :
  (∀ client query params s, (execute_on client query params s).1 ≠ OutOfFuel) →
  (1 ≤ fuel)%nat → timeout_seconds ≤ Z.of_nat fuel * 5 →
  (upsert_labels execute_on repr_str fuel self ids timeout_seconds w).1 ≠ OutOfFuel
  ∧ (upsert_data_rows execute_on repr_str fuel self ids timeout_seconds w).1 ≠ OutOfFuel.
Proof.
  intros Hex Hfuel Hbudget.
  assert (∀ query key w1,
    ((r ← client_execute execute_on (client self) query
            (VDict [("where", VDict [("id", key)])]);
      lift (getitem r "MEALabelRegistrationTaskStatus")) w1).1 ≠ OutOfFuel
    ∧ ((r ← client_execute execute_on (client self) query
            (VDict [("where", VDict [("id", key)])]);
        lift (getitem r "MEADataRowRegistrationTaskStatus")) w1).1 ≠ OutOfFuel)
    as Hpoll.
  { intros query key w1. unfold mbind, M_bind, bind, client_execute, lift.
    specialize (Hex (client self) query (VDict [("where", VDict [("id", key)])])
                  (service w1)).
    destruct (execute_on _ _ _ _) as [[r|e|] s']; cbn [fst] in *; try done.
    split.
    - destruct (getitem r "MEALabelRegistrationTaskStatus") eqn:Hg; try done.
      destruct r; discriminate Hg || (cbn in Hg; by destruct (dict_get _ _)).
    - destruct (getitem r "MEADataRowRegistrationTaskStatus") eqn:Hg; try done.
      destruct r; discriminate Hg || (cbn in Hg; by destruct (dict_get _ _)). }
  split.
  - unfold upsert_labels. destruct (Z.of_nat (length ids) <? 1); [done|].
    unfold mbind at 1, M_bind at 1, bind at 1, client_execute at 1.
    match goal with
    | |- context [execute_on ?c ?q ?p ?s] => specialize (Hex c q p s)
    end.
    destruct (execute_on _ _ _ _) as [[res|e|] s']; cbn [fst] in *; try done.
    unfold mbind at 1, M_bind at 1, bind at 1, lift at 1.
    destruct (getitem res labels_mutation_name) as [task_id|e|] eqn:Hg; cbn [fst];
      try done.
    + apply wait_terminates; [lia| |done..].
      intros w1. apply (Hpoll labels_status_query_str task_id w1).
    + destruct res; discriminate Hg || (cbn in Hg; by destruct (dict_get _ _)).
  - unfold upsert_data_rows. destruct (Z.of_nat (length ids) <? 1); [done|].
    unfold mbind at 1, M_bind at 1, bind at 1, client_execute at 1.
    match goal with
    | |- context [execute_on ?c ?q ?p ?s] => specialize (Hex c q p s)
    end.
    destruct (execute_on _ _ _ _) as [[res|e|] s']; cbn [fst] in *; try done.
    unfold mbind at 1, M_bind at 1, bind at 1, lift at 1.
    destruct (getitem res data_rows_mutation_name) as [task_id|e|] eqn:Hg; cbn [fst];
      try done.
    + apply wait_terminates; [lia| |done..].
      intros w1. apply (Hpoll data_rows_status_query_str task_id w1).
    + destruct res; discriminate Hg || (cbn in Hg; by destruct (dict_get _ _)).
Qed.

(** X3: the loop returns nothing but True, and only right after a poll
    that answered COMPLETE. *)
Theorem wait_returns_only_after_complete fuel self status_fn timeout_seconds
    sleep_time w b w' :
  _wait_until_done repr_str fuel self status_fn timeout_seconds sleep_time w =
    (Return b, w') →
  b = true
  ∧ ∃ w0 res, status_fn w0 = (Return res, w')
              ∧ getitem res "status" = Return (VStr "COMPLETE").
Proof.
  revert timeout_seconds w. induction fuel as [|fuel IH]; intros timeout_seconds w;
    [discriminate|].
  rewrite wait_unfold.
  destruct (status_fn w) as [[res|e|] w1] eqn:Hfn; try discriminate.
  destruct (getitem res "status") as [status|e|] eqn:Hst; try discriminate.
  destruct (eq_str status "COMPLETE") eqn:Hc.
  { intros [= <- <-]. split; [done|]. exists w, res.
    apply eq_str_true in Hc as ->. done. }
  destruct (eq_str status "FAILED").
  { destruct (getitem res "errorMessage"); discriminate. }
  destruct (timeout_seconds - sleep_time <=? 0); [discriminate|].
  destruct (time_sleep sleep_time w1) as [[[]|e|] w2]; try discriminate.
  apply IH.
Qed.

(** X4: a sleep time that is not positive.  With a status that stays
    pending and a positive budget, a sleep time of 0 makes the loop poll
    without end: it runs out of every fuel.  A negative sleep time makes
    [time.sleep] raise ValueError right after the first poll. *)
Theorem wait_nonpositive_sleep self status_fn timeout_seconds :
  pending status_fn → 0 < timeout_seconds →
  (∀ fuel w,
     (_wait_until_done repr_str fuel self status_fn timeout_seconds 0 w).1 = OutOfFuel)
  ∧ (∀ fuel sleep_time w, sleep_time < 0 →
     (_wait_until_done repr_str (S fuel) self status_fn timeout_seconds sleep_time w).1
       = Raise (ValueError "sleep length must be non-negative")).
Proof.
  intros Hpend Hpos. split.
  - intros fuel. induction fuel as [|fuel IH]; intros w; [reflexivity|].
    rewrite wait_unfold.
    destruct (Hpend w) as (res & w1 & status & -> & -> & -> & ->).
    rewrite Z.sub_0_r.
    destruct (Z.leb_spec timeout_seconds 0) as [Hle|_]; [lia|].
    rewrite time_sleep_nonneg by lia. apply IH.
  - intros fuel sleep_time w Hneg. rewrite wait_unfold.
    destruct (Hpend w) as (res & w1 & status & -> & -> & -> & ->).
    destruct (Z.leb_spec (timeout_seconds - sleep_time) 0) as [Hle|_]; [lia|].
    unfold time_sleep. by destruct (Z.ltb_spec sleep_time 0) as [_|Hge]; [|lia].
Qed.

(** X5: answers the loop cannot read.  An exception of the status function
    goes through the loop; an answer without "status" raises KeyError; an
    answer FAILED without "errorMessage" raises KeyError as well, not the
    failure Exception.  No such call sleeps. *)
Theorem wait_unreadable_answer fuel self status_fn timeout_seconds sleep_time w :
  (∀ e w', status_fn w = (Raise e, w') →
     _wait_until_done repr_str (S fuel) self status_fn timeout_seconds sleep_time w =
       (Raise e, w'))
  ∧ (∀ d w', status_fn w = (Return (VDict d), w') → dict_get d "status" = None →
     _wait_until_done repr_str (S fuel) self status_fn timeout_seconds sleep_time w =
       (Raise (KeyError "status"), w'))
  ∧ (∀ d w', status_fn w = (Return (VDict d), w') →
     dict_get d "status" = Some (VStr "FAILED") → dict_get d "errorMessage" = None →
     _wait_until_done repr_str (S fuel) self status_fn timeout_seconds sleep_time w =
       (Raise (KeyError "errorMessage"), w')).
Proof.
  split; [|split].
  - intros e w' Hfn. rewrite wait_unfold, Hfn. reflexivity.
  - intros d w' Hfn Hst. rewrite wait_unfold, Hfn. cbn [getitem]. by rewrite Hst.
  - intros d w' Hfn Hst Hem. rewrite wait_unfold, Hfn. cbn [getitem].
    rewrite Hst, Hem. reflexivity.
Qed.

Lemma upsert_labels_creation_fails fuel self ids timeout_seconds w o s' e :
  ids ≠ [] →
  (o = Raise e ∨ ∃ res, o = Return res ∧ getitem res labels_mutation_name = Raise e) →
  execute_on (client self) labels_create_task_query_str
    (VDict [("modelRunId", VStr (uid self)); ("labelIds", ModelRunPy.ids ids)])
    (service w) = (o, s') →
  ∃ w', upsert_labels execute_on repr_str fuel self ids timeout_seconds w = (Raise e, w')
        ∧ service w' = s'
        ∧ executed w' = executed w ++
            [(labels_create_task_query_str,
              VDict [("modelRunId", VStr (uid self)); ("labelIds", ModelRunPy.ids ids)])]
        ∧ slept w' = slept w.
Proof.
  intros Hne Ho Hex. unfold upsert_labels.
  destruct ids as [|id ids]; [done|].
  destruct (Z.ltb_spec (Z.of_nat (length (id :: ids))) 1) as [Hlt|_];
    [cbn [length] in Hlt; lia|].
  unfold mbind, M_bind, bind, client_execute, lift. rewrite Hex.
  destruct Ho as [->|(res & -> & ->)]; eexists; (split; [reflexivity|done]).
Qed.

Lemma upsert_data_rows_creation_fails fuel self ids timeout_seconds w o s' e :
  ids ≠ [] →
  (o = Raise e ∨ ∃ res, o = Return res ∧ getitem res data_rows_mutation_name = Raise e) →
  execute_on (client self) data_rows_create_task_query_str
    (VDict [("modelRunId", VStr (uid self)); ("dataRowIds", ModelRunPy.ids ids)])
    (service w) = (o, s') →
  ∃ w', upsert_data_rows execute_on repr_str fuel self ids timeout_seconds w = (Raise e, w')
        ∧ service w' = s'
        ∧ executed w' = executed w ++
            [(data_rows_create_task_query_str,
              VDict [("modelRunId", VStr (uid self)); ("dataRowIds", ModelRunPy.ids ids)])]
        ∧ slept w' = slept w.
Proof.
  intros Hne Ho Hex. unfold upsert_data_rows.
  destruct ids as [|id ids]; [done|].
  destruct (Z.ltb_spec (Z.of_nat (length (id :: ids))) 1) as [Hlt|_];
    [cbn [length] in Hlt; lia|].
  unfold mbind, M_bind, bind, client_execute, lift. rewrite Hex.
  destruct Ho as [->|(res & -> & ->)]; eexists; (split; [reflexivity|done]).
Qed.

(** X6: a task that cannot be created.  When the creating call raises, or
    when looking up the mutation's name in its response raises (KeyError for
    a response without that entry), [upsert_labels] and [upsert_data_rows]
    raise that exception after this one remote call: they do not poll and do
    not sleep. *)
Theorem upsert_creation_fails fuel self ids timeout_seconds w e :
  ids ≠ [] →
  (∀ o s',
     (o = Raise e ∨ ∃ res, o = Return res ∧ getitem res labels_mutation_name = Raise e) →
     execute_on (client self) labels_create_task_query_str
       (VDict [("modelRunId", VStr (uid self)); ("labelIds", ModelRunPy.ids ids)])
       (service w) = (o, s') →
     ∃ w', upsert_labels execute_on repr_str fuel self ids timeout_seconds w
             = (Raise e, w')
           ∧ service w' = s'
           ∧ length (executed w') = S (length (executed w))
           ∧ slept w' = slept w)
  ∧ (∀ o s',
     (o = Raise e ∨ ∃ res, o = Return res
                           ∧ getitem res data_rows_mutation_name = Raise e) →
     execute_on (client self) data_rows_create_task_query_str
       (VDict [("modelRunId", VStr (uid self)); ("dataRowIds", ModelRunPy.ids ids)])
       (service w) = (o, s') →
     ∃ w', upsert_data_rows execute_on repr_str fuel self ids timeout_seconds w
             = (Raise e, w')
           ∧ service w' = s'
           ∧ length (executed w') = S (length (executed w))
           ∧ slept w' = slept w).
Proof.
  intros Hne. split; intros o s' Ho Hex.
  - destruct (upsert_labels_creation_fails fuel self ids timeout_seconds w o s' e
                Hne Ho Hex) as (w' & Hrun & Hs & He & Hsl).
    exists w'. rewrite He, length_app. cbn [length]. repeat split; try done. lia.
  - destruct (upsert_data_rows_creation_fails fuel self ids timeout_seconds w o s' e
                Hne Ho Hex) as (w' & Hrun & Hs & He & Hsl).
    exists w'. rewrite He, length_app. cbn [length]. repeat split; try done. lia.
Qed.

Lemma string_length_append (a b : string) :
  String.length (a +:+ b) = (String.length a + String.length b)%nat.
Proof.
  induction a as [|c a IH]; [done|].
  change (S (String.length (a +:+ b)) = S (String.length a + String.length b)).
  by rewrite IH.
Qed.

Lemma string_append_inj_r (a b c : string) : a +:+ c = b +:+ c → a = b.
Proof.
  revert b. induction a as [|x a IH]; intros [|y b] Heq; try done.
  - apply (f_equal String.length) in Heq.
    rewrite !string_length_append in Heq. cbn [String.length] in Heq. lia.
  - apply (f_equal String.length) in Heq.
    rewrite !string_length_append in Heq. cbn [String.length] in Heq. lia.
  - change (String x (a +:+ c) = String y (b +:+ c)) in Heq.
    injection Heq as -> Heq. f_equal. by apply IH.
Qed.

Variable app_url : Client → string.

(** X7: two data rows of one model run, with the same client and model,
    have the same [url] only when they have the same uid. *)
Theorem url_determines_uid (r1 r2 : ModelRunDataRow Client) :
  row_client r1 = row_client r2 →
  row_model_id r1 = row_model_id r2 →
  model_run_id r1 = model_run_id r2 →
  url app_url r1 = url app_url r2 →
  row_uid r1 = row_uid r2.
Proof.
  intros Hc Hm Hr. unfold url. rewrite Hc, Hm, Hr. intros Heq.
  repeat (apply String.app_inj in Heq).
  by apply string_append_inj_r in Heq.
Qed.

(** X17: the number in the TimeoutError message is the budget left when
    the loop gave up, which is at most 0: for a positive timeout the message
    is never the one that names the timeout the caller gave. *)
Theorem timeout_message_reports_budget_left self status_fn timeout_seconds sleep_time w :
  pending status_fn → 0 < sleep_time → 0 < timeout_seconds →
  ∃ (n : nat) w' (budget_left : Z),
    budget_left = timeout_seconds - Z.of_nat n * sleep_time
    ∧ budget_left ≤ 0
    ∧ (∀ fuel, (n ≤ fuel)%nat →
         _wait_until_done repr_str fuel self status_fn timeout_seconds sleep_time w =
           (Raise (TimeoutError ("Unable to complete import within " +:+
              pretty budget_left +:+ " seconds.")), w'))
    ∧ "Unable to complete import within " +:+ pretty budget_left +:+ " seconds."
      ≠ "Unable to complete import within " +:+ pretty timeout_seconds +:+ " seconds.".
Proof.
  intros Hpend Hsleep Hpos.
  destruct (ModelRunFacts.wait_pending_times_out repr_str self status_fn sleep_time
              Hpend Hsleep (Z.to_nat timeout_seconds) timeout_seconds w)
    as (n & w' & Hn1 & Hn2 & _ & Hrun); [done|].
  exists n, w', (timeout_seconds - Z.of_nat n * sleep_time).
  split; [done|]. split; [done|]. split; [exact Hrun|].
  intros Heq. apply String.app_inj in Heq. apply string_append_inj_r in Heq.
  apply (inj pretty) in Heq. lia.
Qed.

End More.

Import Demo.

Lemma execute_on_ends client query params served :
  (execute_on client query params served).1 ≠ OutOfFuel.
Proof. unfold execute_on. by repeat case_match. Qed.

(** X2 at the demo service, with a budget of 60 seconds and 12 iterations. *)
Lemma upsert_terminates_witness :
  (upsert_labels execute_on repr_str 12 run ["label-1"] 60 fresh_world).1 ≠ OutOfFuel
  ∧ (upsert_data_rows execute_on repr_str 12 run ["label-1"] 60 fresh_world).1
    ≠ OutOfFuel.
Proof.
  apply (upsert_terminates execute_on repr_str 12 run ["label-1"] 60 fresh_world);
    [exact execute_on_ends|lia|lia].
Defined.

(** X3 at a status that is COMPLETE at once. *)
Lemma wait_returns_only_after_complete_witness :
  true = true
  ∧ ∃ w0 res, complete_status w0 = (Return res, fresh_world)
              ∧ getitem res "status" = Return (VStr "COMPLETE").
Proof.
  apply (wait_returns_only_after_complete repr_str 1 run complete_status 60 5
           fresh_world true fresh_world).
  reflexivity.
Defined.

Lemma running_status_stays_pending : pending running_status.
Proof.
  intros w. exists (VDict [("status", VStr "IN_PROGRESS"); ("errorMessage", VNone)]),
    w, (VStr "IN_PROGRESS").
  repeat split; reflexivity.
Qed.

(** X4 at a status that stays IN_PROGRESS, with a budget of 60 seconds. *)
Lemma wait_nonpositive_sleep_witness :
  (∀ fuel w,
     (_wait_until_done repr_str fuel run running_status 60 0 w).1 = OutOfFuel)
  ∧ (∀ fuel sleep_time w, sleep_time < 0 →
     (_wait_until_done repr_str (S fuel) run running_status 60 sleep_time w).1
       = Raise (ValueError "sleep length must be non-negative")).
Proof.
  apply (wait_nonpositive_sleep repr_str run running_status 60);
    [exact running_status_stays_pending|lia].
Defined.

(** X17 at a status that stays IN_PROGRESS, with a budget of 12 seconds. *)
Lemma timeout_message_reports_budget_left_witness :
  ∃ (n : nat) w' (budget_left : Z),
    budget_left = 12 - Z.of_nat n * 5
    ∧ budget_left ≤ 0
    ∧ (∀ fuel, (n ≤ fuel)%nat →
         _wait_until_done repr_str fuel run running_status 12 5 fresh_world =
           (Raise (TimeoutError ("Unable to complete import within " +:+
              pretty budget_left +:+ " seconds.")), w'))
    ∧ "Unable to complete import within " +:+ pretty budget_left +:+ " seconds."
      ≠ "Unable to complete import within " +:+ pretty 12 +:+ " seconds.".
Proof.
  apply (timeout_message_reports_budget_left repr_str run running_status 12 5
           fresh_world); [exact running_status_stays_pending|lia|lia].
Defined.

(** X5 at a status function that answers an empty object. *)
Lemma wait_unreadable_answer_witness :
  _wait_until_done repr_str 1 run empty_status 60 5 fresh_world =
    (Raise (KeyError "status"), fresh_world).
Proof.
  apply (proj1 (proj2 (wait_unreadable_answer repr_str 0 run empty_status 60 5
                         fresh_world)) []); reflexivity.
Defined.

(** X6: the service that is down, and the demo service, which does not
    know the mutation of [upsert_data_rows]. *)
Lemma upsert_creation_fails_witness :
  (∃ w', upsert_labels down_execute_on repr_str 12 run ["label-1"] 60 fresh_world
           = (Raise (Exception "connection refused"), w')
         ∧ service w' = 1%nat
         ∧ length (executed w') = S (length (executed fresh_world))
         ∧ slept w' = slept fresh_world)
  ∧ (∃ w', upsert_data_rows execute_on repr_str 12 run ["row-1"] 60 fresh_world
             = (Raise (KeyError data_rows_mutation_name), w')
           ∧ service w' = 1%nat
           ∧ length (executed w') = S (length (executed fresh_world))
           ∧ slept w' = slept fresh_world).
Proof.
  split.
  - apply (proj1 (upsert_creation_fails down_execute_on repr_str 12 run ["label-1"] 60
                    fresh_world (Exception "connection refused") ltac:(done))
             (Raise (Exception "connection refused")) 1%nat);
      [by left|reflexivity].
  - apply (proj2 (upsert_creation_fails execute_on repr_str 12 run ["row-1"] 60
                    fresh_world (KeyError data_rows_mutation_name) ltac:(done))
             (Return (VDict [])) 1%nat);
      [right; by exists (VDict [])|reflexivity].
Defined.

(** X7 at two rows of the demo model run. *)
Lemma url_determines_uid_witness : row_uid (row "row-1") = row_uid (row "row-1").
Proof.
  apply (url_determines_uid demo_app_url (row "row-1") (row "row-1")); reflexivity.
Defined.

Example url_of_row :
  url demo_app_url (row "row-1") =
    "https://app.example/models/model-1/run-1/AllDatarowsSlice/row-1?view=carousel".
Proof. reflexivity. Qed.

End ModelRunMore.

(** ** Roles: construction, lookup and iteration *)

Module RoleMore.

Import RolePy RoleFacts.

Lemma normalise_ascii_comm c :
  (if Ascii.eqb (upper_ascii c) " " then "_"%char else upper_ascii c) =
  upper_ascii (if Ascii.eqb c " " then "_"%char else c).
Proof. each_ascii c. Qed.

(** X8: the name [Roles.__init__] stores a role under, [upper] then
    [replace], is the name [Roles.__getitem__] computes from the same string,
    [replace] then [upper]; and normalising twice changes nothing more. *)
Theorem normalise_orders_agree (s : string) :
  replace " " "_" (upper s) = upper (replace " " "_" s)
  ∧ upper (replace " " "_" (replace " " "_" (upper s))) = replace " " "_" (upper s)
  ∧ replace " " "_" (upper (replace " " "_" (upper s))) = replace " " "_" (upper s).
Proof.
  assert (∀ t, replace " " "_" (upper t) = upper (replace " " "_" t)) as Hcomm.
  { intros t. induction t as [|c t IH]; [done|].
    cbn [upper replace]. by rewrite normalise_ascii_comm, IH. }
  assert (upper (replace " " "_" (replace " " "_" (upper s))) = replace " " "_" (upper s))
    as Hidem.
  { apply variant_normalises; [apply normalised_normal|apply variant_of_refl]. }
  split; [apply Hcomm|]. split; [exact Hidem|].
  by rewrite Hcomm, Hidem.
Qed.

Lemma dict_get_set_eq d key v : dict_get (dict_set d key v) key = Some v.
Proof.
  induction d as [|[k v0] d IH]; cbn [dict_set dict_get].
  - by rewrite String.eqb_refl.
  - destruct (String.eqb k key) eqn:Hk; cbn [dict_get]; by rewrite Hk.
Qed.

Lemma dict_set_set_eq d key v :
  dict_set (dict_set d key v) key v = dict_set d key v.
Proof.
  induction d as [|[k v0] d IH]; cbn [dict_set].
  - by rewrite String.eqb_refl.
  - destruct (String.eqb k key) eqn:Hk; cbn [dict_set]; rewrite Hk; [done|].
    by rewrite IH.
Qed.

Lemma getitem_setitem result key v result' :
  setitem result key v = Return result' →
  getitem result' key = Return v ∧ setitem result' key v = Return result'.
Proof.
  destruct result; try discriminate. intros [= <-]. cbn [getitem setitem].
  by rewrite dict_get_set_eq, dict_set_set_eq.
Qed.

Section More.

Context {Client Service : Type}.
Variable execute_on : Client → string → value → Service → outcome value * Service.
Variable repr_set : gset string → string.

Implicit Types (self roles : Roles Client) (w : World Service).

(** Every entry the loop leaves was built for [client] from a dict whose
    name is the entry's key; names once valid stay valid; and every result
    the loop went through has its normalised name among the valid ones. *)
Lemma init_loop_entries client results self results' roles :
  init_loop client results self = (results', Return roles) →
  (∀ key, key ∈ valid_roles self →
     ∃ role, attrs self !! key = Some role ∧ role_client role = client
             ∧ getitem (field_values role) "name" = Return (VStr key)) →
  (∀ key, key ∈ valid_roles roles →
     ∃ role, attrs roles !! key = Some role ∧ role_client role = client
             ∧ getitem (field_values role) "name" = Return (VStr key))
  ∧ valid_roles self ⊆ valid_roles roles
  ∧ (∀ result s, result ∈ results → getitem result "name" = Return (VStr s) →
       replace " " "_" (upper s) ∈ valid_roles roles).
Proof.
  revert self results'. induction results as [|result rest IH];
    intros self results' Hloop Hinv; cbn [init_loop] in Hloop.
  - injection Hloop as <- <-. split; [done|]. split; [done|].
    intros result s Hin. by apply elem_of_nil in Hin.
  - destruct (getitem result "name") as [[| | |s0| |]|e|] eqn:Hname; try done.
    destruct (setitem result "name" (VStr (replace " " "_" (upper s0))))
      as [result'|e|] eqn:Hset; try done.
    cbv zeta in Hloop.
    destruct (init_loop client rest _) as [rest' o] eqn:Hrest.
    injection Hloop as <- ->.
    destruct (getitem_setitem _ _ _ _ Hset) as [Hget _].
    apply IH in Hrest as (Hentries & Hsub & Hnames).
    + split; [exact Hentries|]. split.
      * cbn [valid_roles] in Hsub. etrans; [apply union_subseteq_l|exact Hsub].
      * intros r s Hin Hr. apply elem_of_cons in Hin as [->|Hin].
        -- rewrite Hname in Hr. injection Hr as ->.
           apply Hsub. cbn [valid_roles]. apply elem_of_union. right.
           by apply elem_of_singleton.
        -- by eapply Hnames.
    + intros key Hin. cbn [valid_roles attrs] in *.
      destruct (decide (replace " " "_" (upper s0) = key)) as [<-|Hne].
      * rewrite lookup_insert_eq. eexists. split; [done|]. by split.
      * rewrite lookup_insert_ne by done.
        apply Hinv. apply elem_of_union in Hin as [Hin|Hin%elem_of_singleton];
          [done|congruence].
Qed.

(** What a construction that returned went through. *)
Lemma Roles__init__inv client w roles w' :
  Roles__init__ execute_on client w = (Return roles, w') →
  ∃ res w1 rs results results',
    _get_roles execute_on client w = (Return res, w1)
    ∧ getitem res "roles" = Return rs
    ∧ iterate rs = Return results
    ∧ init_loop client results Roles_empty = (results', Return roles).
Proof.
  unfold Roles__init__, mbind, M_bind, bind, lift. intros Hinit.
  destruct (_get_roles execute_on client w) as [[res| |] w1]; try done.
  destruct (getitem res "roles") as [rs| |] eqn:Hrs; try done.
  destruct (iterate rs) as [results| |] eqn:Hit; try done.
  destruct (init_loop client results Roles_empty) as [results' o] eqn:Hloop.
  match type of Hinit with
  | context [match ?m w1 with _ => _ end] => destruct (m w1) as [[[]| |] w2]
  end; try done.
  injection Hinit as -> _.
  by exists res, w1, rs, results, results'.
Qed.

(** X9: lookup by the server's own names.  When a construction returned,
    every role of the response it went through, looked up under the name the
    response gave it, resolves to a Role of this client whose name field is
    the normalised name. *)
Theorem Roles_lookup_by_server_name client w roles w' res w1 results result s :
  Roles__init__ execute_on client w = (Return roles, w') →
  _get_roles execute_on client w = (Return res, w1) →
  getitem res "roles" = Return (VList results) →
  result ∈ results →
  getitem result "name" = Return (VStr s) →
  ∃ role, Roles__getitem__ repr_set roles s = Return role
          ∧ role_client role = client
          ∧ getitem (field_values role) "name"
            = Return (VStr (replace " " "_" (upper s))).
Proof.
  intros Hinit Hget Hrs Hin Hname.
  destruct (Roles__init__inv _ _ _ _ Hinit)
    as (res0 & w0 & rs & results0 & results' & Hget0 & Hrs0 & Hit & Hloop).
  rewrite Hget in Hget0. injection Hget0 as <- <-.
  rewrite Hrs in Hrs0. injection Hrs0 as <-.
  cbn [iterate] in Hit. injection Hit as <-.
  apply init_loop_entries in Hloop as (Hentries & _ & Hnames);
    [|intros key Hkey; cbn in Hkey; by apply elem_of_empty in Hkey].
  pose proof (Hnames result s Hin Hname) as Hvalid.
  destruct (Hentries _ Hvalid) as (role & Hrole & Hc & Hn).
  exists role. split; [|by split].
  apply (Roles__getitem__normal repr_set roles (replace " " "_" (upper s)));
    [done..|].
  symmetry. apply normalise_orders_agree.
Qed.

(** X10: on a Roles object that a construction returned, [__getitem__]
    returns a Role exactly for the queries whose normalised form is a valid
    role name and raises ValueError for every other query; it never fails with
    AttributeError. *)
Theorem Roles_getitem_total client w roles w' q :
  Roles__init__ execute_on client w = (Return roles, w') →
  (upper (replace " " "_" q) ∈ valid_roles roles →
   ∃ role, Roles__getitem__ repr_set roles q = Return role
           ∧ attrs roles !! upper (replace " " "_" q) = Some role)
  ∧ (upper (replace " " "_" q) ∉ valid_roles roles →
     Roles__getitem__ repr_set roles q =
       Raise (ValueError ("No role named " +:+ upper (replace " " "_" q) +:+
                " exists. Valid names are one of " +:+ repr_set (valid_roles roles)))).
Proof.
  intros Hinit. split.
  - intros Hin. destruct (Roles__init__ok _ _ _ _ _ Hinit _ Hin) as [_ [role Hrole]].
    exists role. split; [|done].
    by apply (Roles__getitem__normal repr_set roles (upper (replace " " "_" q))).
  - intros Hnin. unfold Roles__getitem__. cbv zeta.
    by rewrite bool_decide_eq_true_2.
Qed.

Lemma _get_roles_returns_cached client w res w1 :
  _get_roles execute_on client w = (Return res, w1) →
  _get_roles_roles w1 = Some res.
Proof.
  destruct (_get_roles_roles w) as [res0|] eqn:Hc.
  - rewrite (_get_roles_cached execute_on client w res0 Hc). by intros [= <- <-].
  - unfold _get_roles, mbind, M_bind, bind, hasattr_roles, getattr_roles,
      client_execute, setattr_roles.
    rewrite bool_decide_eq_false_2 by (rewrite Hc; by intros [? ?]).
    cbn [negb]. destruct (execute_on _ _ _ _) as [[r|e|] s']; try done.
    cbn [_get_roles_roles]. by intros [= <- <-].
Qed.

(** The loop over the results it has left behind goes through them
    unchanged and builds the same object. *)
Lemma init_loop_again client results self results' roles :
  init_loop client results self = (results', Return roles) →
  init_loop client results' self = (results', Return roles).
Proof.
  revert self results'. induction results as [|result rest IH];
    intros self results' Hloop; cbn [init_loop] in Hloop.
  - by injection Hloop as <- <-.
  - destruct (getitem result "name") as [[| | |s| |]|e|] eqn:Hname; try done.
    destruct (setitem result "name" (VStr (replace " " "_" (upper s))))
      as [result'|e|] eqn:Hset; try done.
    cbv zeta in Hloop.
    destruct (init_loop client rest _) as [rest' o] eqn:Hrest.
    injection Hloop as <- ->.
    destruct (getitem_setitem _ _ _ _ Hset) as [Hget Hset'].
    cbn [init_loop]. rewrite Hget.
    destruct (normalise_orders_agree s) as (_ & _ & ->).
    rewrite Hset'. cbv zeta. by rewrite (IH _ _ Hrest).
Qed.

(** X11: constructing a Roles object again, with the same client, in the
    world a construction that returned has left: no remote call, the cached
    response stays as the first construction left it, and the object is
    equal to the first one. *)
Theorem Roles_constructed_again client w roles w' :
  Roles__init__ execute_on client w = (Return roles, w') →
  Roles__init__ execute_on client w' = (Return roles, w').
Proof.
  unfold Roles__init__, mbind, M_bind, bind, lift. intros Hinit.
  destruct (_get_roles execute_on client w) as [[res| |] w1] eqn:Hget; try done.
  pose proof (_get_roles_returns_cached _ _ _ _ Hget) as Hc1.
  destruct (getitem res "roles") as [rs| |] eqn:Hrs; try done.
  destruct (iterate rs) as [results| |] eqn:Hit; try done.
  destruct (init_loop client results Roles_empty) as [results' o] eqn:Hloop.
  assert (∀ w2 : World Service, (mret tt : M Service unit) w2 = (Return tt, w2)) as Hret
    by done.
  destruct rs as [| | | |l|];
    try (rewrite Hret in Hinit; injection Hinit as -> <-;
         rewrite (_get_roles_cached execute_on client w1 res Hc1), Hrs, Hit, Hloop;
         by rewrite Hret).
  cbn [iterate] in Hit. injection Hit as <-.
  destruct res as [| | | | |d]; try discriminate Hrs.
  cbn [write_back setitem] in Hinit. unfold setattr_roles in Hinit.
  injection Hinit as -> <-.
  rewrite _get_roles_cached
    with (res := VDict (dict_set d "roles" (VList results'))) by reflexivity.
  cbn [getitem]. rewrite dict_get_set_eq. cbn [iterate].
  rewrite (init_loop_again _ _ _ _ _ Hloop).
  cbn [write_back setitem]. rewrite dict_set_set_eq. reflexivity.
Qed.

(** X12: a fetch that raises is not cached.  When the first call of
    [_get_roles] in a process raises, the attribute stays unset, and the next
    call fetches again and returns (and caches) what it gets. *)
Theorem failed_fetch_not_cached client client' w e s1 res s2 :
  _get_roles_roles w = None →
  execute_on client query_str VNone (service w) = (Raise e, s1) →
  execute_on client' query_str VNone s1 = (Return res, s2) →
  let '(os, w') := _get_roles_calls execute_on [client; client'] w in
  os = [Raise e; Return res]
  ∧ executed w' = executed w ++ [(query_str, VNone); (query_str, VNone)]
  ∧ _get_roles_roles w' = Some res.
Proof.
  intros Hc Hex1 Hex2. cbn [_get_roles_calls].
  assert (_get_roles execute_on client w =
    (Raise e, {| service := s1; executed := executed w ++ [(query_str, VNone)];
                 _get_roles_roles := None; files := files w; slept := slept w |}))
    as ->.
  { unfold _get_roles, mbind, M_bind, bind, hasattr_roles, client_execute.
    rewrite bool_decide_eq_false_2 by (rewrite Hc; by intros [? ?]).
    cbn [negb]. by rewrite Hex1, Hc. }
  rewrite _get_roles_fresh with (res := res) (s' := s2) by done.
  unfold fetched. cbn [executed _get_roles_roles]. by rewrite <- app_assoc.
Qed.

(** X18: a response is cached before it is looked at.  When the first fetch
    returns an object without "roles", the construction raises KeyError, and
    so does every later construction, without a new fetch. *)
Theorem malformed_response_cached client client' w d s' :
  _get_roles_roles w = None →
  execute_on client query_str VNone (service w) = (Return (VDict d), s') →
  dict_get d "roles" = None →
  Roles__init__ execute_on client w =
    (Raise (KeyError "roles"), fetched w (VDict d) s')
  ∧ Roles__init__ execute_on client' (fetched w (VDict d) s') =
      (Raise (KeyError "roles"), fetched w (VDict d) s').
Proof.
  intros Hc Hex Hd. unfold Roles__init__, mbind, M_bind, bind, lift. split.
  - rewrite (_get_roles_fresh execute_on client w (VDict d) s' Hc Hex).
    cbn [getitem]. by rewrite Hd.
  - rewrite _get_roles_cached with (res := VDict d) by reflexivity.
    cbn [getitem]. by rewrite Hd.
Qed.

(** A valid name was valid before the loop or is the normalised name of a
    result the loop went through. *)
Lemma init_loop_names_only client results self results' roles :
  init_loop client results self = (results', Return roles) →
  ∀ key, key ∈ valid_roles roles →
    key ∈ valid_roles self
    ∨ ∃ result s, result ∈ results
                  ∧ getitem result "name" = Return (VStr s)
                  ∧ replace " " "_" (upper s) = key.
Proof.
  revert self results'. induction results as [|result rest IH];
    intros self results' Hloop key Hkey; cbn [init_loop] in Hloop.
  - injection Hloop as <- <-. by left.
  - destruct (getitem result "name") as [[| | |s0| |]|e|] eqn:Hname; try done.
    destruct (setitem result "name" (VStr (replace " " "_" (upper s0))))
      as [result'|e|] eqn:Hset; try done.
    cbv zeta in Hloop.
    destruct (init_loop client rest _) as [rest' o] eqn:Hrest.
    injection Hloop as <- ->.
    destruct (IH _ _ Hrest key Hkey) as [Hin|(r & s & Hin & Hr & Hs)].
    + cbn [valid_roles] in Hin.
      apply elem_of_union in Hin as [Hin|Hin%elem_of_singleton]; [by left|].
      right. exists result, s0. split; [by left|]. by split.
    + right. exists r, s. split; [by right|]. by split.
Qed.

(** X19: the valid role names of a constructed Roles object are exactly the
    normalised names of the roles in the response it was built from. *)
Theorem valid_roles_exact client w roles w' res w1 results key :
  Roles__init__ execute_on client w = (Return roles, w') →
  _get_roles execute_on client w = (Return res, w1) →
  getitem res "roles" = Return (VList results) →
  key ∈ valid_roles roles ↔
  ∃ result s, result ∈ results
              ∧ getitem result "name" = Return (VStr s)
              ∧ replace " " "_" (upper s) = key.
Proof.
  intros Hinit Hget Hrs.
  destruct (Roles__init__inv _ _ _ _ Hinit)
    as (res0 & w0 & rs & results0 & results' & Hget0 & Hrs0 & Hit & Hloop).
  rewrite Hget in Hget0. injection Hget0 as <- <-.
  rewrite Hrs in Hrs0. injection Hrs0 as <-.
  cbn [iterate] in Hit. injection Hit as <-.
  split.
  - intros Hkey.
    destruct (init_loop_names_only _ _ _ _ _ Hloop key Hkey) as [Hin|Hex]; [|done].
    cbn in Hin. by apply elem_of_empty in Hin.
  - intros (result & s & Hin & Hname & <-).
    apply init_loop_entries in Hloop as (_ & _ & Hnames);
      [|intros k Hk; cbn in Hk; by apply elem_of_empty in Hk].
    by eapply Hnames.
Qed.

Variable iter_set : gset string → list string.

(** [next] until StopIteration over keys that all have their entry. *)
Lemma next_all_keys roles keys :
  (∀ key, key ∈ keys → is_Some (attrs roles !! key)) →
  ∀ fuel, (length keys < fuel)%nat →
  ∃ l, next_all fuel (mkRolesObj roles (Some keys)) =
         (Return l, mkRolesObj roles (Some []))
       ∧ Forall2 (λ key role, attrs roles !! key = Some role) keys l.
Proof.
  induction keys as [|key keys IH]; intros Hkeys [|fuel] Hfuel;
    try (cbn [length] in Hfuel; lia).
  - exists []. split; [reflexivity|constructor].
  - destruct (Hkeys key) as [role Hrole]; [by left|].
    destruct (IH (λ k Hk, Hkeys k (list_elem_of_further _ _ _ Hk)) fuel)
      as (l & Hl & Hall); [cbn [length] in Hfuel; lia|].
    exists (role :: l). split; [|by constructor].
    cbn [next_all]. unfold Roles__next__. cbn [key_iter roles_of].
    rewrite Hrole, Hl. reflexivity.
Qed.

(** X13: iterating over a Roles object that a construction returned, with
    [iter] and then [next] until StopIteration, yields the entry of every valid
    role name once, in the order the set gives the names, and raises nothing;
    [next] on an object on which [iter] was never called raises
    AttributeError. *)
Theorem Roles_iteration client w roles w' fuel key_iter0 :
  Roles__init__ execute_on client w = (Return roles, w') →
  (∀ X, iter_set X ≡ₚ elements X) →
  (size (valid_roles roles) < fuel)%nat →
  (∃ l, list_of iter_set fuel (mkRolesObj roles key_iter0) =
          (Return l, mkRolesObj roles (Some []))
        ∧ Forall2 (λ key role, attrs roles !! key = Some role)
            (iter_set (valid_roles roles)) l
        ∧ length l = size (valid_roles roles))
  ∧ ∃ msg, Roles__next__ (mkRolesObj roles None) =
             (NextRaise (AttributeError msg), mkRolesObj roles None).
Proof.
  intros Hinit Hperm Hfuel. split; [|by eexists].
  pose proof (Roles__init__ok _ _ _ _ _ Hinit) as Hok.
  assert (length (iter_set (valid_roles roles)) = size (valid_roles roles)) as Hlen.
  { by rewrite (Hperm (valid_roles roles)). }
  destruct (next_all_keys roles (iter_set (valid_roles roles))) with (fuel := fuel)
    as (l & Hl & Hall).
  - intros key Hkey. apply Hok. rewrite (Hperm (valid_roles roles)) in Hkey.
    by apply elem_of_elements in Hkey.
  - lia.
  - exists l. split; [exact Hl|]. split; [exact Hall|].
    by rewrite <- (Forall2_length _ _ _ Hall).
Qed.

(** X14: the iterator is shared.  [__iter__] returns the object itself and
    resets its one [key_iter]: a loop over a Roles object that loops over the
    same object in its body gets all the roles in the inner loop, and its own
    next [next] raises StopIteration, so the outer body runs once. *)
Theorem Roles_nested_iteration client w roles w' fuel key_iter0 :
  Roles__init__ execute_on client w = (Return roles, w') →
  (∀ X, iter_set X ≡ₚ elements X) →
  valid_roles roles ≠ ∅ →
  (size (valid_roles roles) < fuel)%nat →
  ∃ role outer,
    Roles__next__ (Roles__iter__ iter_set (mkRolesObj roles key_iter0)) =
      (Yield role, outer)
    ∧ ∃ l outer',
        list_of iter_set fuel outer = (Return l, outer')
        ∧ length l = size (valid_roles roles)
        ∧ Roles__next__ outer' = (StopIteration, outer').
Proof.
  intros Hinit Hperm Hne Hfuel.
  pose proof (Roles__init__ok _ _ _ _ _ Hinit) as Hok.
  assert (∀ key, key ∈ iter_set (valid_roles roles) →
            is_Some (attrs roles !! key)) as Hkeys.
  { intros key Hkey. apply Hok. rewrite (Hperm (valid_roles roles)) in Hkey.
    by apply elem_of_elements in Hkey. }
  assert (length (iter_set (valid_roles roles)) = size (valid_roles roles)) as Hlen.
  { by rewrite (Hperm (valid_roles roles)). }
  destruct (iter_set (valid_roles roles)) as [|key keys] eqn:Hit.
  { exfalso. apply Hne. cbn [length] in Hlen. symmetry in Hlen.
    apply size_empty_inv in Hlen. by apply leibniz_equiv. }
  destruct (Hkeys key) as [role Hrole]; [by left|].
  exists role, (mkRolesObj roles (Some keys)). split.
  { unfold Roles__next__, Roles__iter__. cbn [key_iter roles_of].
    by rewrite Hit, Hrole. }
  destruct (next_all_keys roles (key :: keys) Hkeys fuel) as (l & Hl & Hall); [lia|].
  exists l, (mkRolesObj roles (Some [])). split; [|split].
  - unfold list_of, Roles__iter__. cbn [roles_of]. by rewrite Hit.
  - by rewrite <- (Forall2_length _ _ _ Hall).
  - reflexivity.
Qed.

End More.

Import Demo.

Lemma demo_populated : Roles__init__ execute_on () fresh_world = (Return roles, populated.2).
Proof. vm_compute. reflexivity. Qed.

(** X9 at the demo service: the role the server calls "Project Lead". *)
Lemma Roles_lookup_by_server_name_witness :
  ∃ role, Roles__getitem__ (λ _, "{...}") roles "Project Lead" = Return role
          ∧ role_client role = ()
          ∧ getitem (field_values role) "name"
            = Return (VStr (replace " " "_" (upper "Project Lead"))).
Proof.
  apply (Roles_lookup_by_server_name execute_on (λ _, "{...}") () fresh_world roles
           populated.2 roles_response (fetched fresh_world roles_response 1%nat)
           [VDict [("id", VStr "r1"); ("name", VStr "Admin")];
            VDict [("id", VStr "r2"); ("name", VStr "Project Lead")]]
           (VDict [("id", VStr "r2"); ("name", VStr "Project Lead")]) "Project Lead").
  - exact demo_populated.
  - reflexivity.
  - reflexivity.
  - right. left.
  - reflexivity.
Defined.

(** X10 at the demo service: a name that is no role. *)
Lemma Roles_getitem_total_witness :
  Roles__getitem__ (λ _, "{...}") roles "nobody" =
    Raise (ValueError ("No role named " +:+ upper (replace " " "_" "nobody") +:+
             " exists. Valid names are one of " +:+ "{...}")).
Proof.
  apply (proj2 (Roles_getitem_total execute_on (λ _, "{...}") () fresh_world roles
                  populated.2 "nobody" demo_populated)).
  intros Hin. vm_compute in Hin. discriminate Hin.
Defined.

(** X11 at the demo service. *)
Lemma Roles_constructed_again_witness :
  Roles__init__ execute_on () populated.2 = (Return roles, populated.2).
Proof.
  apply (Roles_constructed_again execute_on () fresh_world roles populated.2).
  exact demo_populated.
Defined.

(** X12 at the service that refuses its first request. *)
Lemma failed_fetch_not_cached_witness :
  let '(os, w') := _get_roles_calls flaky_execute_on [(); ()] fresh_world in
  os = [Raise (Exception "connection refused"); Return roles_response]
  ∧ executed w' = executed fresh_world ++ [(query_str, VNone); (query_str, VNone)]
  ∧ _get_roles_roles w' = Some roles_response.
Proof.
  apply (failed_fetch_not_cached flaky_execute_on () () fresh_world
           (Exception "connection refused") 1%nat roles_response 2%nat);
    reflexivity.
Defined.

(** X18 at a service that answers every query with an empty object. *)
Lemma malformed_response_cached_witness :
  Roles__init__ (λ _ _ _ served, (Return (VDict []), S served)) () fresh_world =
    (Raise (KeyError "roles"), fetched fresh_world (VDict []) 1%nat)
  ∧ Roles__init__ (λ _ _ _ served, (Return (VDict []), S served)) ()
      (fetched fresh_world (VDict []) 1%nat) =
      (Raise (KeyError "roles"), fetched fresh_world (VDict []) 1%nat).
Proof.
  apply (malformed_response_cached (λ _ _ _ served, (Return (VDict []), S served))
           () () fresh_world [] 1%nat); reflexivity.
Defined.

(** X19 at the demo service: PROJECT_LEAD is valid, as the name of the role
    the server calls "Project Lead". *)
Lemma valid_roles_exact_witness :
  "PROJECT_LEAD" ∈ valid_roles roles ↔
  ∃ result s,
    result ∈ [VDict [("id", VStr "r1"); ("name", VStr "Admin")];
              VDict [("id", VStr "r2"); ("name", VStr "Project Lead")]]
    ∧ getitem result "name" = Return (VStr s)
    ∧ replace " " "_" (upper s) = "PROJECT_LEAD".
Proof.
  apply (valid_roles_exact execute_on () fresh_world roles populated.2 roles_response
           (fetched fresh_world roles_response 1%nat)).
  - exact demo_populated.
  - reflexivity.
  - reflexivity.
Defined.

Lemma demo_roles_size : size (valid_roles roles) = 2%nat.
Proof. vm_compute. reflexivity. Qed.

(** X13 at the demo service, the set giving its names as [elements]. *)
Lemma Roles_iteration_witness :
  (∃ l, list_of elements 3 (mkRolesObj roles None) =
          (Return l, mkRolesObj roles (Some []))
        ∧ Forall2 (λ key role, attrs roles !! key = Some role)
            (elements (valid_roles roles)) l
        ∧ length l = size (valid_roles roles))
  ∧ ∃ msg, Roles__next__ (mkRolesObj roles None) =
             (NextRaise (AttributeError msg), mkRolesObj roles None).
Proof.
  apply (Roles_iteration execute_on elements () fresh_world roles populated.2 3 None).
  - exact demo_populated.
  - reflexivity.
  - rewrite demo_roles_size. lia.
Defined.

(** X14 at the demo service. *)
Lemma Roles_nested_iteration_witness :
  ∃ role outer,
    Roles__next__ (Roles__iter__ elements (mkRolesObj roles None)) = (Yield role, outer)
    ∧ ∃ l outer',
        list_of elements 3 outer = (Return l, outer')
        ∧ length l = size (valid_roles roles)
        ∧ Roles__next__ outer' = (StopIteration, outer').
Proof.
  apply (Roles_nested_iteration execute_on elements () fresh_world roles populated.2
           3 None).
  - exact demo_populated.
  - reflexivity.
  - intros Hempty. pose proof demo_roles_size as Hsize.
    rewrite Hempty in Hsize. by rewrite size_empty in Hsize.
  - rewrite demo_roles_size. lia.
Defined.

End RoleMore.

(** ** Polygon: the stored points under [geometry] *)

Module PolygonMore.

Import PolygonPy PolygonFacts.

Section More.

Context {coord : Type} `{EqDecision coord}.
Variable repr_points : list (Point coord) → string.

Implicit Types (pts : list (Point coord)) (self : Polygon coord).

(** X15: [geometry] keeps a valid Polygon valid.  After the call the stored
    points still pass the validator, and they start with the points the
    Polygon was constructed from, in their order. *)
Theorem geometry_keeps_valid pts self :
  Polygon_new repr_points pts = Return self →
  let self' := (geometry self).2 in
  is_geom_valid repr_points (points self') = Return (points self')
  ∧ Polygon_new repr_points (points self') = Return self'
  ∧ pts `prefix_of` points self'.
Proof.
  intros Hnew. apply Polygon_new_inv in Hnew as [-> Hlen].
  destruct pts as [|p0 pts]; [simpl in Hlen; lia|].
  cbv zeta. rewrite geometry_cons. cbv zeta. cbn [snd points].
  case_bool_decide.
  - split; [by apply is_geom_valid_long|]. split; [by apply Polygon_new_long|done].
  - assert (3 ≤ length ((p0 :: pts) ++ [p0]))%nat as Hlen'
      by (rewrite length_app; lia).
    split; [by apply is_geom_valid_long|]. split; [by apply Polygon_new_long|].
    by apply prefix_app_r.
Qed.

(** X16: [geometry] raises IndexError exactly on a Polygon whose stored list
    is empty, and then leaves it as it is; on every other Polygon, also one
    with 1 or 2 points, it returns. *)
Theorem geometry_index_error self :
  (points self = [] →
   geometry self = (Raise (IndexError "list index out of range"), self))
  ∧ (points self ≠ [] → returns (geometry self).1 = true)
  ∧ (returns (geometry self).1 = false ↔ points self = []).
Proof.
  destruct self as [[|p0 pts]].
  - split; [done|]. split; [done|]. done.
  - rewrite geometry_cons. cbv zeta. cbn [fst returns points].
    split; [done|]. split; [done|]. split; done.
Qed.

End More.

Import Demo.

(** X15 at the triangle. *)
Lemma geometry_keeps_valid_witness :
  let self' := (geometry (mkPolygon triangle)).2 in
  is_geom_valid (λ _, "[...]") (points self') = Return (points self')
  ∧ Polygon_new (λ _, "[...]") (points self') = Return self'
  ∧ triangle `prefix_of` points self'.
Proof.
  apply (geometry_keeps_valid (coord := Z) (λ _, "[...]") triangle (mkPolygon triangle)).
  reflexivity.
Defined.

(** X16 at a Polygon whose points were removed. *)
Lemma geometry_index_error_witness :
  geometry (mkPolygon ([] : list (Point Z))) =
    (Raise (IndexError "list index out of range"), mkPolygon []).
Proof.
  apply (proj1 (geometry_index_error (coord := Z) (mkPolygon []))). reflexivity.
Defined.

End PolygonMore.
